(** * Access control engine of ad-fiddle: [src/code/filesystem.py]

    A shallow embedding of the [Directory] class and of the part of the
    Windows security API it drives, followed by the properties of the
    permission operations. *)

From Stdlib Require Import ZArith Ascii String.
From stdpp Require Import base list strings gmap sorting.
From Equations Require Import Equations.

Local Open Scope Z_scope.
Local Open Scope string_scope.
Local Open Scope list_scope.

(** ** Constants of the Windows API *)

(** [ntsecuritycon], imported as [con] by the source.  The values are the
    ones of the Windows headers; [tests/test_constants.py] pins the
    combinations the program uses. *)
Module con.
Definition FILE_GENERIC_READ : Z := 1179785.
Definition FILE_GENERIC_WRITE : Z := 1179926.
Definition FILE_GENERIC_EXECUTE : Z := 1179808.
Definition GENERIC_READ : Z := -2147483648.
Definition GENERIC_WRITE : Z := 1073741824.
Definition DELETE : Z := 65536.
Definition FILE_ALL_ACCESS : Z := 2032127.
End con.

(** [win32security]: the flag constants.  [tests/test_filesystem.py] pins
    the values [_set_flags] returns. *)
Module win32security.
Definition OBJECT_INHERIT_ACE : Z := 1.
Definition CONTAINER_INHERIT_ACE : Z := 2.
Definition NO_INHERITANCE : Z := 0.
Definition DACL_SECURITY_INFORMATION : Z := 4.
Definition PROTECTED_DACL_SECURITY_INFORMATION : Z := -2147483648.
Definition UNPROTECTED_DACL_SECURITY_INFORMATION : Z := 536870912.

(** Bit positions of the three flags above, for [Z.testbit]. *)
Definition bit_DACL : Z := 2.
Definition bit_UNPROTECTED_DACL : Z := 29.
Definition bit_PROTECTED_DACL : Z := 31.
End win32security.

(** ** [src/code/constants.py] *)

(** [class Permissions(Enum)]. *)
Inductive Permissions : Set :=
  | READ
  | READ_WRITE
  | DELETE
  | MODIFY
  | FULL_CONTROL
  | MODIFY_PROTECTED
  | FULL_DENY.

#[global] Instance Permissions_eq_dec : EqDecision Permissions.
Proof. solve_decision. Defined.

(** [Permissions.<member>.value].  The last two members are declared with
    [auto()], which continues from the last value that was given. *)
Definition value (p : Permissions) : Z :=
  match p with
  | READ => con.FILE_GENERIC_READ
  | READ_WRITE => Z.lor con.FILE_GENERIC_READ con.FILE_GENERIC_WRITE
  | DELETE => con.DELETE
  | MODIFY =>
      Z.lor (Z.lor (Z.lor con.GENERIC_READ con.GENERIC_WRITE)
                   con.FILE_GENERIC_EXECUTE) con.DELETE
  | FULL_CONTROL => con.FILE_ALL_ACCESS
  | MODIFY_PROTECTED => con.FILE_ALL_ACCESS + 1
  | FULL_DENY => con.FILE_ALL_ACCESS + 2
  end.

(** ** The flag composer *)

(** [Directory._set_flags], with keyword arguments [inherits] and
    [propagation] (both default to [False]); the result is the pair
    [(security_information_flags, propagation_flags)]. *)
Definition _set_flags (inherits propagation : bool) : Z * Z :=
  let propagation_flags :=
    if propagation
    then Z.lor win32security.CONTAINER_INHERIT_ACE win32security.OBJECT_INHERIT_ACE
    else win32security.NO_INHERITANCE in
  let security_information_flags := win32security.DACL_SECURITY_INFORMATION in
  let security_information_flags :=
    if negb inherits
    then Z.lor security_information_flags
               win32security.PROTECTED_DACL_SECURITY_INFORMATION
    else Z.lor security_information_flags
               win32security.UNPROTECTED_DACL_SECURITY_INFORMATION in
  (security_information_flags, propagation_flags).

(** ** Python values, exceptions and outcomes *)

(** The Python objects a caller is taken to pass where the source expects
    a permission level or a path: [None], a [str], a [bytes], or a member
    of [Permissions]. *)
Inductive PyObject : Type :=
  | PyNone
  | PyStr (s : string)
  | PyBytes (s : string)
  | PyEnum (p : Permissions).

(** The exceptions of [filesystem.py] and of the libraries it calls.
    [pywintypes_error] carries the name of the failing API function,
    [OSError] the path named in its message. *)
Inductive Exception : Type :=
  | NotAValidPath
  | NotAValidPermission
  | TypeError
  | IndexError
  | OSError (path : string)
  | FileExistsError (path : string)
  | FileNotFoundError (path : string)
  | pywintypes_error (api : string).

Inductive Outcome (A : Type) : Type :=
  | Return (a : A)
  | Raise (e : Exception).
Arguments Return {A} a.
Arguments Raise {A} e.

#[global] Instance Outcome_ret : MRet Outcome := λ A a, Return a.
#[global] Instance Outcome_bind : MBind Outcome := λ A B f m,
  match m with
  | Return a => f a
  | Raise e => Raise e
  end.

(** ** Access control lists as [win32security] shows them *)

(** A security identifier, in its string form ([S-1-5-18]). *)
Abbreviation PySID := string (only parsing).

(** [class WellKnownSIDs(Enum)] of [constants.py].  [CURRENT_USER] is the
    SID of whoever runs the program, and [filesystem.py] never reads it. *)
Module WellKnownSIDs.
Definition NT_AUTHORITY : PySID := "S-1-5-18".
Definition ADMINS : PySID := "S-1-5-32-544".
Definition EVERYONE : PySID := "S-1-1-0".
End WellKnownSIDs.

Inductive AceType : Set :=
  | ACCESS_ALLOWED_ACE_TYPE
  | ACCESS_DENIED_ACE_TYPE.

#[global] Instance AceType_eq_dec : EqDecision AceType.
Proof. solve_decision. Defined.

(** What [PyACL.GetAce] returns: [((type, flags), mask, sid)]. *)
Record ACE : Type := mkACE {
  ace_type : AceType;
  ace_flags : Z;
  ace_mask : Z;
  ace_sid : PySID
}.

#[global] Instance ACE_eq_dec : EqDecision ACE.
Proof. solve_decision. Defined.

(** A [PyACL] is the sequence of its entries. *)
Abbreviation PyACL := (list ACE) (only parsing).

(** A [PySECURITY_DESCRIPTOR], reduced to what DACL operations touch: the
    entries, and whether the DACL is protected against inheritance from the
    parent object.  Descriptors without a DACL are not represented. *)
Record SECURITY_DESCRIPTOR : Type := mkSD {
  Dacl : PyACL;
  dacl_protected : bool
}.

#[global] Instance SECURITY_DESCRIPTOR_eq_dec : EqDecision SECURITY_DESCRIPTOR.
Proof. solve_decision. Defined.

Definition GetSecurityDescriptorDacl (sd : SECURITY_DESCRIPTOR) : PyACL :=
  Dacl sd.

(** [sd.SetSecurityDescriptorDacl(1, dacl, 0)]. *)
Definition SetSecurityDescriptorDacl (sd : SECURITY_DESCRIPTOR) (dacl : PyACL)
  : SECURITY_DESCRIPTOR :=
  {| Dacl := dacl; dacl_protected := dacl_protected sd |}.

Definition GetAceCount (dacl : PyACL) : nat := length dacl.

Definition GetAce (dacl : PyACL) (i : nat) : Outcome ACE :=
  match dacl !! i with
  | Some ace => Return ace
  | None => Raise IndexError
  end.

Definition DeleteAce (dacl : PyACL) (i : nat) : PyACL := delete i dacl.

Definition is_denied (ace : ACE) : Prop := ace_type ace = ACCESS_DENIED_ACE_TYPE.
Definition is_allowed (ace : ACE) : Prop := ace_type ace = ACCESS_ALLOWED_ACE_TYPE.

(** pywin32 keeps an ACL it adds to in canonical order, denied entries
    before allowed ones: [test_deny_permission_works] expects the new
    denied entry in front of the existing allowed ones, and
    [test_grant_permission_works] the new allowed entry behind them. *)
Definition _ReorderACL (dacl : PyACL) : PyACL :=
  filter is_denied dacl ++ filter is_allowed dacl.

(** [dacl.AddAccessAllowedAceEx(ACL_REVISION, flags, mask, sid)]. *)
Definition AddAccessAllowedAceEx (dacl : PyACL) (flags mask : Z) (sid : PySID)
  : PyACL :=
  _ReorderACL (dacl ++ [mkACE ACCESS_ALLOWED_ACE_TYPE flags mask sid]).

(** [dacl.AddAccessDeniedAceEx(ACL_REVISION, flags, mask, sid)]. *)
Definition AddAccessDeniedAceEx (dacl : PyACL) (flags mask : Z) (sid : PySID)
  : PyACL :=
  _ReorderACL (dacl ++ [mkACE ACCESS_DENIED_ACE_TYPE flags mask sid]).

(** ** The machine the program runs on *)

(** The directory tree of the volume: a folder has a name, its sub-folders
    in the order the system enumerates them, and the names of its files.
    The name of the topmost folder is the path of the volume's root. *)
#[warnings="-register-all"]
Inductive Tree : Type :=
  | Folder (name : string) (dirs : list Tree) (files : list string).

Definition folder_name (t : Tree) : string :=
  match t with Folder name _ _ => name end.

(** Induction on a tree, with the property at hand for every sub-folder. *)
Fixpoint Tree_nested_ind (P : Tree → Prop)
    (step : ∀ name dirs files, Forall P dirs → P (Folder name dirs files))
    (t : Tree) : P t :=
  match t with
  | Folder name dirs files =>
      step name dirs files
        ((fix all (ds : list Tree) : Forall P ds :=
            match ds with
            | [] => Forall_nil_2 P
            | d :: ds' => Forall_cons_2 P d ds' (Tree_nested_ind P step d) (all ds')
            end) dirs)
  end.

(** What [LookupAccountSid] returns: [(name, domain, type)]. *)
Abbreviation Account := (string * string * Z)%type (only parsing).

(** The part of the machine the program reads and never changes: the
    account database in both directions, path normalisation (which depends
    on the current directory), and the descriptor the system gives a
    directory it creates (inherited from the parent). *)
Record Host : Type := mkHost {
  accounts : gmap PySID Account;
  account_names : gmap string PySID;
  abspath : string → string;
  created_sd : gmap string SECURITY_DESCRIPTOR → string → SECURITY_DESCRIPTOR
}.

(** The calls into the security API that read or write a descriptor. *)
Inductive Call : Type :=
  | CallGetFileSecurity (path : string)
  | CallSetFileSecurity (path : string) (sd : SECURITY_DESCRIPTOR)
  | CallGetNamedSecurityInfo (path : string)
  | CallSetNamedSecurityInfo (path : string) (flags : Z) (dacl : PyACL).

(** The part the program changes: the volume, the security descriptor
    stored for each object, and the descriptor calls made so far, oldest
    first. *)
Record OS : Type := mkOS {
  volume : Tree;
  security : gmap string SECURITY_DESCRIPTOR;
  calls : list Call
}.

(** A computation that reads and writes the machine and may raise; the
    state is kept as it is when an exception is raised. *)
Definition Py (A : Type) : Type := OS → Outcome A * OS.

#[global] Instance Py_ret : MRet Py := λ A a os, (Return a, os).
#[global] Instance Py_bind : MBind Py := λ A B f m os,
  match m os with
  | (Return a, os') => f a os'
  | (Raise e, os') => (Raise e, os')
  end.

Definition lift {A} (o : Outcome A) : Py A := λ os, (o, os).

(** The machine after one more descriptor call. *)
Definition logged (c : Call) (os : OS) : OS :=
  {| volume := volume os; security := security os; calls := calls os ++ [c] |}.

(** The machine after the descriptor of [path] has been replaced. *)
Definition stored (path : string) (sd : SECURITY_DESCRIPTOR) (os : OS) : OS :=
  {| volume := volume os; security := <[path := sd]> (security os);
     calls := calls os |}.

Definition record (c : Call) : Py unit := λ os, (Return tt, logged c os).

Definition read_security (api path : string) : Py SECURITY_DESCRIPTOR := λ os,
  match security os !! path with
  | Some sd => (Return sd, os)
  | None => (Raise (pywintypes_error api), os)
  end.

Definition write_security (path : string) (sd : SECURITY_DESCRIPTOR) : Py unit :=
  λ os, (Return tt, stored path sd os).

(** [win32security.GetFileSecurity(path, DACL_SECURITY_INFORMATION)]. *)
Definition GetFileSecurity (path : string) : Py SECURITY_DESCRIPTOR :=
  record (CallGetFileSecurity path);;
  read_security "GetFileSecurity" path.

(** [win32security.SetFileSecurity(path, DACL_SECURITY_INFORMATION, sd)]:
    the object takes the DACL of [sd] and the protection [sd] carries. *)
Definition SetFileSecurity (path : string) (sd : SECURITY_DESCRIPTOR) : Py unit :=
  record (CallSetFileSecurity path sd);;
  read_security "SetFileSecurity" path;;
  write_security path sd.

(** [win32security.GetNamedSecurityInfo(path, SE_FILE_OBJECT, ...)]. *)
Definition GetNamedSecurityInfo (path : string) : Py SECURITY_DESCRIPTOR :=
  record (CallGetNamedSecurityInfo path);;
  read_security "GetNamedSecurityInfo" path.

(** [win32security.SetNamedSecurityInfo(path, SE_FILE_OBJECT, flags, None,
    None, dacl, None)]: with [DACL_SECURITY_INFORMATION] the object takes
    [dacl]; [PROTECTED_DACL_SECURITY_INFORMATION] protects its DACL and
    [UNPROTECTED_DACL_SECURITY_INFORMATION] lifts the protection.  The
    entries the system would then copy down from the parent object are not
    represented: the store keeps what was written. *)
Definition SetNamedSecurityInfo (path : string) (flags : Z) (dacl : PyACL)
  : Py unit :=
  record (CallSetNamedSecurityInfo path flags dacl);;
  old ← read_security "SetNamedSecurityInfo" path;
  write_security path
    {| Dacl := if Z.testbit flags win32security.bit_DACL
               then dacl else Dacl old;
       dacl_protected :=
         if Z.testbit flags win32security.bit_PROTECTED_DACL then true
         else if Z.testbit flags win32security.bit_UNPROTECTED_DACL then false
         else dacl_protected old |}.

(** ** Strings of Python *)

(** The methods of [str] the model uses. *)
Module str.

(** [sub in s]. *)
Fixpoint occurs (sub s : string) : bool :=
  String.prefix sub s
  || match s with
     | EmptyString => false
     | String _ rest => occurs sub rest
     end.

(** [s.split(sep)] for a separator of one character: the pieces between
    the separators, one more than there are separators. *)
Fixpoint split (sep : ascii) (s : string) : list string :=
  match s with
  | EmptyString => [EmptyString]
  | String c rest =>
      if decide (c = sep) then EmptyString :: split sep rest
      else match split sep rest with
           | piece :: pieces => String c piece :: pieces
           | [] => [String c EmptyString]
           end
  end.

(** [sep.join(pieces)]. *)
Fixpoint join (sep : string) (pieces : list string) : string :=
  match pieces with
  | [] => EmptyString
  | piece :: rest =>
      match rest with
      | [] => piece
      | _ :: _ => (piece ++ sep ++ join sep rest)%string
      end
  end.

(** [s.replace(old, new)] for a non-empty [old]: the occurrences of [old]
    are taken from the left and do not overlap; [skip] counts the
    characters of an occurrence still to be passed over. *)
Fixpoint replace_from (old new : string) (skip : nat) (s : string) : string :=
  match s with
  | EmptyString => EmptyString
  | String c rest =>
      match skip with
      | S skip' => replace_from old new skip' rest
      | O =>
          if String.prefix old s
          then (new ++ replace_from old new (String.length old - 1) rest)%string
          else String c (replace_from old new 0 rest)
      end
  end.

Definition replace (old new s : string) : string := replace_from old new 0 s.

(** [s.count(sub)] for a [sub] of one character. *)
Fixpoint count (sub : ascii) (s : string) : nat :=
  match s with
  | EmptyString => 0
  | String c rest => (if decide (c = sub) then 1 else 0) + count sub rest
  end.

(** [c.isspace()] for the characters below 256: tab to carriage return,
    the four separators from 28 to 31, the space, NEL and the no-break
    space. *)
Definition isspace (c : ascii) : bool :=
  let n := nat_of_ascii c in
  ((9 <=? n) && (n <=? 13) || (28 <=? n) && (n <=? 32)
   || (n =? 133) || (n =? 160))%nat.

Fixpoint lstrip (s : string) : string :=
  match s with
  | EmptyString => EmptyString
  | String c rest => if isspace c then lstrip rest else s
  end.

Fixpoint rstrip (s : string) : string :=
  match s with
  | EmptyString => EmptyString
  | String c rest =>
      match rstrip rest with
      | EmptyString => if isspace c then EmptyString else String c EmptyString
      | kept => String c kept
      end
  end.

(** [s.strip()]. *)
Definition strip (s : string) : string := rstrip (lstrip s).

End str.

(** ** Paths and the directory tree *)

Definition last_char (s : string) : option ascii :=
  last (String.list_ascii_of_string s).

Definition is_sep (c : ascii) : bool :=
  bool_decide (c = "\"%char) || bool_decide (c = "/"%char).

(** [os.path.join(path, name)] of [ntpath], for a [name] with no drive and
    no separator: the two are glued with a backslash unless [path] is
    empty or already ends in a separator or in the colon of a drive. *)
Definition os_path_join (path name : string) : string :=
  match last_char path with
  | None => name
  | Some c =>
      if is_sep c || bool_decide (c = ":"%char)
      then (path ++ name)%string
      else (path ++ "\" ++ name)%string
  end.

(** [os.walk(top)], top-down, on the folder [t] found at [top]: the triple
    of the folder first, then the walks of its sub-folders in order. *)
Fixpoint os_walk (top : string) (t : Tree)
  : list (string * list string * list string) :=
  match t with
  | Folder _ dirs files =>
      (top, map folder_name dirs, files)
      :: flat_map (λ d, os_walk (os_path_join top (folder_name d)) d) dirs
  end.

(** Every folder of a tree with its path, the tree's own folder first. *)
Fixpoint folders (top : string) (t : Tree) : list (string * Tree) :=
  match t with
  | Folder _ dirs _ =>
      (top, t) :: flat_map (λ d, folders (os_path_join top (folder_name d)) d) dirs
  end.

Definition files_of (entry : string * Tree) : list string :=
  match entry.2 with
  | Folder _ _ files => map (os_path_join entry.1) files
  end.

Definition find_folder (vol : Tree) (path : string) : option Tree :=
  match list_find (λ entry, entry.1 = path) (folders (folder_name vol) vol) with
  | Some (_, entry) => Some entry.2
  | None => None
  end.

(** The paths of all folders and files of the volume. *)
Definition all_paths (vol : Tree) : list string :=
  flat_map (λ entry, entry.1 :: files_of entry) (folders (folder_name vol) vol).

(** [f] applied to the first item of a list it is defined on. *)
Definition update_first {A} (f : A → option A) : list A → option (list A) :=
  fix descend (items : list A) : option (list A) :=
    match items with
    | [] => None
    | item :: items' =>
        match f item with
        | Some item' => Some (item' :: items')
        | None => cons item <$> descend items'
        end
    end.

(** ** Names on Windows *)

(** [c.lower()] for a character below 256. *)
Definition lower (c : ascii) : ascii :=
  let n := nat_of_ascii c in
  if ((65 <=? n) && (n <=? 90)
      || (192 <=? n) && (n <=? 222) && negb (n =? 215))%nat
  then ascii_of_nat (n + 32)
  else c.

(** [c.upper()] for a character below 128. *)
Definition upper (c : ascii) : ascii :=
  let n := nat_of_ascii c in
  if ((97 <=? n) && (n <=? 122))%nat then ascii_of_nat (n - 32) else c.

Fixpoint string_map (f : ascii → ascii) (s : string) : string :=
  match s with
  | EmptyString => EmptyString
  | String c rest => String (f c) (string_map f rest)
  end.

(** [os.path.normcase] of [ntpath]: forward slashes become backslashes
    and letters lower case. *)
Definition normcase (s : string) : string :=
  string_map lower (str.replace "/" "\" s).

(** [os.path.splitdrive] of [ntpath]: the drive is a letter with its
    colon, or the server and share of a network path, or a device. *)
Definition splitdrive (p : string) : string * string :=
  let normp := str.replace "/" "\" p in
  if String.prefix "\\" normp then
    let start :=
      if String.eqb (string_map upper (substring 0 8 normp)) "\\?\UNC\"
      then 8%nat else 2%nat in
    match String.index start "\" normp with
    | None => (p, EmptyString)
    | Some index =>
        match String.index (index + 1) "\" normp with
        | None => (p, EmptyString)
        | Some index2 =>
            (substring 0 index2 p, substring index2 (String.length p - index2) p)
        end
    end
  else if String.eqb (substring 1 1 normp) ":" then
    (substring 0 2 p, substring 2 (String.length p - 2) p)
  else (EmptyString, p).

(** [path.lstrip(sep)]. *)
Fixpoint lstrip_sep (path : string) : string :=
  match path with
  | String "\" rest => lstrip_sep rest
  | _ => path
  end.

(** The loop of [normpath] over the components: [kept] holds, last
    first, the components before the one at hand.  Empty components and
    [.] are dropped; [..] takes the component before it away, unless
    there is none or it is [..] itself, and is dropped at the root. *)
Fixpoint collapse (rooted : bool) (kept comps : list string) : list string :=
  match comps with
  | [] => rev kept
  | comp :: comps =>
      if bool_decide (comp = "") || bool_decide (comp = ".")
      then collapse rooted kept comps
      else if bool_decide (comp = "..") then
        match kept with
        | before :: kept' =>
            if bool_decide (before = "..")
            then collapse rooted (comp :: kept) comps
            else collapse rooted kept' comps
        | [] =>
            if rooted then collapse rooted kept comps
            else collapse rooted (comp :: kept) comps
        end
      else collapse rooted (comp :: kept) comps
  end.

(** [os.path.normpath] of [ntpath]. *)
Definition normpath (path : string) : string :=
  let path := str.replace "/" "\" path in
  let '(prefix, path) := splitdrive path in
  let prefix := if String.prefix "\" path then (prefix ++ "\")%string else prefix in
  let rooted := bool_decide (last_char prefix = Some "\"%char) in
  let comps := collapse rooted [] (str.split "\" (lstrip_sep path)) in
  if bool_decide (prefix = "") && bool_decide (comps = [])
  then "."
  else (prefix ++ str.join "\" comps)%string.

(** [os.path.basename] of [ntpath]: what follows the last separator,
    the drive set aside. *)
Definition basename (p : string) : string :=
  default EmptyString (last (str.split "\" (str.replace "/" "\" (splitdrive p).2))).

Section Names.

Context (host : Host).

(** The form under which the system looks a path up: the full path,
    normalised, letter case set aside.  Two spellings name the same
    place exactly when their forms are equal. *)
Definition place (path : string) : string :=
  normcase (normpath (abspath host path)).

(** The path ends in a separator: it can only name a folder. *)
Definition ends_with_sep (path : string) : bool :=
  match last_char path with
  | Some c => is_sep c
  | None => false
  end.

(** Something is at the place [path] names: a folder, or a file unless
    the path ends in a separator.  The empty path names nothing. *)
Definition exists_at (vol : Tree) (path : string) : Prop :=
  path ≠ ""
  ∧ place path ∈ map place (if ends_with_sep path
                            then (folders (folder_name vol) vol).*1
                            else all_paths vol).

(** The folder at the place [path] names. *)
Definition find_folder_at (vol : Tree) (path : string) : option Tree :=
  if bool_decide (path = "") then None
  else
    match list_find (λ entry, place entry.1 = place path)
            (folders (folder_name vol) vol) with
    | Some (_, entry) => Some entry.2
    | None => None
    end.

(** The name [path] gives the entry it names, when that entry is one of
    the folder at [top]: the last component of the full path. *)
Definition entry_name (top path : string) : option string :=
  let name := basename (normpath (abspath host path)) in
  if negb (bool_decide (path = ""))
     && negb (bool_decide (name = ""))
     && bool_decide (place (os_path_join top name) = place path)
  then Some name else None.

(** The tree with a new empty folder at the place [path] names, when
    the folder that is to contain it exists somewhere in [t] (itself
    found at [top]). *)
Fixpoint mkdir_in (top : string) (t : Tree) (path : string) : option Tree :=
  match t with
  | Folder name dirs files =>
      match entry_name top path with
      | Some new => Some (Folder name (dirs ++ [Folder new [] []]) files)
      | None =>
          dirs' ← update_first
                    (λ d, mkdir_in (os_path_join top (folder_name d)) d path) dirs;
          Some (Folder name dirs' files)
      end
  end.

End Names.

#[global] Instance exists_at_dec host vol path : Decision (exists_at host vol path).
Proof. unfold exists_at. apply _. Defined.

(** ** [class Directory] *)

(** An instance: its only attribute is [_path]. *)
Record Directory : Type := mkDirectory {
  _path : string
}.

(** What a variable such as [targets] can hold: a list, which every loop
    over it traverses again from the start, or a generator, which hands
    out each of its pending items once. *)
Inductive Iterable : Type :=
  | PyList (items : list string)
  | PyGenerator (pending : list string).

(** [permissions in Permissions]: the membership test of an enumeration
    raises [TypeError] for an object that is not a member of an
    enumeration.  (From Python 3.12 on it is false for the objects above
    instead; the validation of [give_permission] comes out the same.) *)
Definition Permissions_contains (o : PyObject) : Outcome bool :=
  match o with
  | PyEnum _ => Return true
  | _ => Raise TypeError
  end.

(** [isinstance(o, str)]. *)
Definition isinstance_str (o : PyObject) : bool :=
  match o with
  | PyStr _ => true
  | _ => false
  end.

(** The characters of a [str] object. *)
Definition str_value (o : PyObject) : string :=
  match o with
  | PyStr s => s
  | _ => ""
  end.

Section Directory.

Context (host : Host).

(** [win32security.LookupAccountSid(None, sid)]. *)
Definition LookupAccountSid (sid : PySID) : Outcome Account :=
  match accounts host !! sid with
  | Some account => Return account
  | None => Raise (pywintypes_error "LookupAccountSid")
  end.

(** [win32security.LookupAccountName(None, name)[0]]. *)
Definition LookupAccountName (name : string) : Outcome PySID :=
  match account_names host !! name with
  | Some sid => Return sid
  | None => Raise (pywintypes_error "LookupAccountName")
  end.

(** [os.path.abspath]: defined on [str] and [bytes]. *)
Definition os_path_abspath (o : PyObject) : Outcome PyObject :=
  match o with
  | PyStr s => Return (PyStr (abspath host s))
  | PyBytes s => Return (PyBytes (abspath host s))
  | _ => Raise TypeError
  end.

(** [file_or_dir_exists(path)], that is [os.path.exists(path)]: true of
    every spelling of the path of a folder or file of the volume. *)
Definition file_or_dir_exists (path : string) : Py bool := λ os,
  (Return (bool_decide (exists_at host (volume os) path)), os).

(** [Directory.create_dir(path)], that is [os.mkdir(path)]: nothing may
    be at the place yet, and the folder that is to contain the new one
    must exist already.  The descriptor of the new folder is kept under
    the spelling it was created with. *)
Definition create_dir (path : string) : Py unit := λ os,
  if bool_decide (exists_at host (volume os) path)
  then (Raise (FileExistsError path), os)
  else match mkdir_in host (folder_name (volume os)) (volume os) path with
       | None => (Raise (FileNotFoundError path), os)
       | Some vol =>
           (Return tt,
            {| volume := vol;
               security := <[path := created_sd host (security os) path]>
                             (security os);
               calls := calls os |})
       end.

(** The getter of the [path] property. *)
Definition path (self : Directory) : string := _path self.

(** The check of the [path] setter: the value it stores, or the
    exception it raises. *)
Definition path_check (new_path : PyObject) : Outcome string :=
  if isinstance_str new_path
  then Return (str_value new_path)
  else Raise NotAValidPath.

(** The setter of the [path] property, on an existing instance: the
    outcome and the instance afterwards. *)
Definition path_setter (self : Directory) (new_path : PyObject)
  : Outcome unit * Directory :=
  match path_check new_path with
  | Return s => (Return tt, {| _path := s |})
  | Raise e => (Raise e, self)
  end.

(** [for target in targets: body(target)], on a list of items. *)
Fixpoint for_each {A} (items : list string) (body : string → Py A) : Py unit :=
  match items with
  | [] => mret tt
  | target :: items => body target;; for_each items body
  end.

(** The same loop on what a variable holds; the result is what the
    variable holds after the loop. *)
Definition for_in {A} (targets : Iterable) (body : string → Py A) : Py Iterable :=
  match targets with
  | PyList items => for_each items body;; mret (PyList items)
  | PyGenerator pending => for_each pending body;; mret (PyGenerator [])
  end.

(** [Directory.list_subdirectories_recurs]: a generator over the walk
    of [self.path].  A walk of what is not a folder yields nothing.  The
    generator reads the tree while it is consumed; nothing between its
    creation and its consumption changes the tree, so its items are
    fixed here. *)
Definition list_subdirectories_recurs (self : Directory) : Py Iterable := λ os,
  let walk :=
    match find_folder (volume os) (path self) with
    | Some t => os_walk (path self) t
    | None => []
    end in
  (Return (PyGenerator
     (flat_map (λ '(dir_name, dir_names, file_names),
          (map (λ sub_dir_name, abspath host (os_path_join dir_name sub_dir_name))
               dir_names
           ++ map (λ filename, abspath host (os_path_join dir_name filename))
                  file_names)%list) walk)), os).

(** [Directory._reset_permissions(path)]. *)
Definition _reset_permissions (path : string) : Py SECURITY_DESCRIPTOR :=
  sd ← GetFileSecurity path;
  let '(_, propagation_flags) := _set_flags false true in
  let dacl : PyACL := [] in
  let dacl := AddAccessAllowedAceEx dacl propagation_flags con.FILE_ALL_ACCESS
                WellKnownSIDs.NT_AUTHORITY in
  let dacl := AddAccessAllowedAceEx dacl propagation_flags con.FILE_ALL_ACCESS
                WellKnownSIDs.ADMINS in
  let sd := SetSecurityDescriptorDacl sd dacl in
  SetFileSecurity path sd;;
  mret sd.

(** [Directory.reset_permissions], with keyword argument [recursive]. *)
Definition reset_permissions (self : Directory) (recursive : bool) : Py unit :=
  let targets := PyList [path self] in
  targets ← (if recursive then list_subdirectories_recurs self
             else mret targets);
  for_in targets _reset_permissions;;
  mret tt.

(** [Directory.__init__(path_to_dir, reset_perms=True)]: the new
    instance. *)
Definition __init__ (path_to_dir : PyObject) (reset_perms : bool)
  : Py Directory :=
  new_path ← lift (os_path_abspath path_to_dir);
  s ← lift (path_check new_path);
  let self := {| _path := s |} in
  exists_ ← file_or_dir_exists (path self);
  (if negb exists_ then create_dir (path self) else mret tt);;
  (if reset_perms then reset_permissions self false else mret tt);;
  mret self.

(** The [while i < ace_count] loop of [reset_user_permissions], from the
    values of [i], [ace_count] and [dacl] at the head of an iteration to
    the [dacl] it leaves.  Every entry [GetAce] returns is a tuple, whose
    last component is the SID.  Each iteration brings [i] and
    [ace_count] one step closer. *)
Equations? strip_loop (user_or_group : PySID) (i ace_count : nat) (dacl : PyACL)
  : Outcome PyACL by wf (ace_count - i)%nat lt :=
  strip_loop user_or_group i ace_count dacl with decide (i < ace_count)%nat := {
    | right _ := Return dacl
    | left _ :=
        ace ← GetAce dacl i;
        user ← LookupAccountSid (ace_sid ace);
        user_to_delete ← LookupAccountSid user_or_group;
        if decide (user = user_to_delete)
        then strip_loop user_or_group i (ace_count - 1) (DeleteAce dacl i)
        else strip_loop user_or_group (i + 1) ace_count dacl }.
Proof. all: lia. Qed.

(** [Directory.reset_user_permissions(path, user_or_group)]. *)
Definition reset_user_permissions (path : string) (user_or_group : PySID)
  : Py SECURITY_DESCRIPTOR :=
  sd ← GetFileSecurity path;
  let dacl := GetSecurityDescriptorDacl sd in
  let ace_count := GetAceCount dacl in
  dacl ← lift (strip_loop user_or_group 0 ace_count dacl);
  let sd := SetSecurityDescriptorDacl sd dacl in
  SetFileSecurity path sd;;
  mret sd.

(** The [try: GetNamedSecurityInfo ... except BaseException] block of
    [_grant_permission] and [_deny_permission]. *)
Definition try_GetNamedSecurityInfo (path : string) : Py SECURITY_DESCRIPTOR :=
  λ os,
    match GetNamedSecurityInfo path os with
    | (Return sd, os') => (Return sd, os')
    | (Raise _, os') => (Raise (OSError path), os')
    end.

(** [Directory._grant_permission], with keyword arguments
    [user_or_group], [path], [permissions], [inherits] and
    [propagation] (the last two default to [True]).  What it prints on the
    way is not part of the machine. *)
Definition _grant_permission (user_or_group : PySID) (path : string)
    (permissions : Permissions) (inherits propagation : bool)
  : Py SECURITY_DESCRIPTOR :=
  let '(security_information_flags, propagation_flags) :=
    _set_flags inherits propagation in
  sd ← try_GetNamedSecurityInfo path;
  let dacl := GetSecurityDescriptorDacl sd in
  let dacl := AddAccessAllowedAceEx dacl propagation_flags (value permissions)
                user_or_group in
  let sd := SetSecurityDescriptorDacl sd dacl in
  SetNamedSecurityInfo path security_information_flags dacl;;
  mret sd.

(** [Directory._deny_permission], with the same arguments. *)
Definition _deny_permission (user_or_group : PySID) (path : string)
    (permissions : Permissions) (inherits propagation : bool)
  : Py SECURITY_DESCRIPTOR :=
  let '(security_information_flags, propagation_flags) :=
    _set_flags inherits propagation in
  sd ← try_GetNamedSecurityInfo path;
  let dacl := GetSecurityDescriptorDacl sd in
  let dacl := AddAccessDeniedAceEx dacl propagation_flags (value permissions)
                user_or_group in
  let sd := SetSecurityDescriptorDacl sd dacl in
  SetNamedSecurityInfo path security_information_flags dacl;;
  mret sd.

(** [Directory._get_user_or_group_pysid(user_or_group)]. *)
Definition _get_user_or_group_pysid (user_or_group : string) : Py PySID :=
  lift (LookupAccountName user_or_group).

(** The validation at the head of [give_permission]:
    [permissions not in Permissions or permissions is Permissions.DELETE]
    raises [NotAValidPermission], and so does a [TypeError] of the
    membership test.  What passes is a member, which is returned. *)
Definition check_permissions (permissions : PyObject) : Outcome Permissions :=
  match Permissions_contains permissions with
  | Raise TypeError => Raise NotAValidPermission
  | Raise e => Raise e
  | Return is_member =>
      match permissions with
      | PyEnum p =>
          if negb is_member || bool_decide (p = DELETE)
          then Raise NotAValidPermission
          else Return p
      | _ => Raise NotAValidPermission
      end
  end.

(** [Directory.give_permission(user_or_group, permissions)], with
    keyword argument [recursive] (default [False]). *)
Definition give_permission (self : Directory) (user_or_group : string)
    (permissions : PyObject) (recursive : bool) : Py unit :=
  permissions ← lift (check_permissions permissions);
  let targets := PyList [path self] in
  targets ← (if recursive then list_subdirectories_recurs self
             else mret targets);
  user_or_group_sid ← _get_user_or_group_pysid user_or_group;
  targets ← for_in targets
              (λ target, reset_user_permissions target user_or_group_sid);
  if decide (permissions = MODIFY_PROTECTED) then
    targets ← for_in targets
                (λ target, _grant_permission user_or_group_sid target MODIFY
                             true true);
    _deny_permission user_or_group_sid (path self) DELETE true false;;
    mret tt
  else if decide (permissions = FULL_DENY) then
    for_in targets
      (λ target, _deny_permission user_or_group_sid target FULL_CONTROL
                   true true);;
    mret tt
  else
    for_in targets
      (λ target, _grant_permission user_or_group_sid target permissions
                   true true);;
    mret tt.

End Directory.

(** ** Notions the properties are stated with *)

Section Notions.

Context (host : Host).

(** An entry is taken to belong to [principal] when the account its SID
    resolves to is the account [principal] resolves to. *)
Definition same_account (principal : PySID) (ace : ACE) : Prop :=
  accounts host !! ace_sid ace = accounts host !! principal.

Definition resolvable (sid : PySID) : Prop := is_Some (accounts host !! sid).

(** The loop of [reset_user_permissions], entry by entry. *)
Fixpoint strip_list (principal : PySID) (dacl : PyACL) : Outcome PyACL :=
  match dacl with
  | [] => Return []
  | ace :: dacl =>
      user ← LookupAccountSid host (ace_sid ace);
      user_to_delete ← LookupAccountSid host principal;
      if decide (user = user_to_delete)
      then strip_list principal dacl
      else rest ← strip_list principal dacl; Return (ace :: rest)
  end.

End Notions.

(** The entries of a DACL that carry the SID [principal]. *)
Definition entries_of (principal : PySID) (dacl : PyACL) : PyACL :=
  filter (λ ace, ace_sid ace = principal) dacl.

#[global] Instance same_account_dec host principal ace :
  Decision (same_account host principal ace).
Proof. unfold same_account. apply _. Defined.

#[global] Instance resolvable_dec host sid : Decision (resolvable host sid).
Proof. unfold resolvable. apply _. Defined.

(** The DACL [reset_user_permissions] leaves when every lookup succeeds. *)
Definition stripped (host : Host) (principal : PySID) (dacl : PyACL) : PyACL :=
  filter (λ ace, ¬ same_account host principal ace) dacl.

(** The machine after [reset_user_permissions] has written [sd] to [path]. *)
Definition after_SetFileSecurity (path : string) (sd : SECURITY_DESCRIPTOR)
    (os : OS) : OS :=
  stored path sd
    (logged (CallSetFileSecurity path sd) (logged (CallGetFileSecurity path) os)).

(** The machine after [_grant_permission] or [_deny_permission] has
    written [dacl] to [path] with the flags of [inherits]. *)
Definition after_SetNamedSecurityInfo (path : string) (inherits propagation : bool)
    (dacl : PyACL) (os : OS) : OS :=
  stored path {| Dacl := dacl; dacl_protected := negb inherits |}
    (logged (CallSetNamedSecurityInfo path (_set_flags inherits propagation).1 dacl)
       (logged (CallGetNamedSecurityInfo path) os)).

(** The entries the dispatch of [give_permission] adds for one target
    that is also the root: section 4.5 of the specification, level by
    level. *)
Definition level_entries (principal : PySID) (level : Permissions) : PyACL :=
  let inheritable :=
    Z.lor win32security.CONTAINER_INHERIT_ACE win32security.OBJECT_INHERIT_ACE in
  match level with
  | MODIFY_PROTECTED =>
      [mkACE ACCESS_ALLOWED_ACE_TYPE inheritable (value MODIFY) principal;
       mkACE ACCESS_DENIED_ACE_TYPE win32security.NO_INHERITANCE (value DELETE)
             principal]
  | FULL_DENY =>
      [mkACE ACCESS_DENIED_ACE_TYPE inheritable (value FULL_CONTROL) principal]
  | _ =>
      [mkACE ACCESS_ALLOWED_ACE_TYPE inheritable (value level) principal]
  end.

(** The DACL the dispatch of [give_permission] leaves on a target that is
    also the root, from the DACL the strip left there. *)
Definition granted (dacl : PyACL) (level : Permissions) (principal : PySID)
  : PyACL :=
  if decide (level = MODIFY_PROTECTED) then
    AddAccessDeniedAceEx
      (AddAccessAllowedAceEx dacl (_set_flags true true).2 (value MODIFY) principal)
      (_set_flags true false).2 (value DELETE) principal
  else if decide (level = FULL_DENY) then
    AddAccessDeniedAceEx dacl (_set_flags true true).2 (value FULL_CONTROL) principal
  else
    AddAccessAllowedAceEx dacl (_set_flags true true).2 (value level) principal.

(** The two entries of a reset. *)
Definition baseline_entries : PyACL :=
  let inheritable := (_set_flags false true).2 in
  [mkACE ACCESS_ALLOWED_ACE_TYPE inheritable con.FILE_ALL_ACCESS
         WellKnownSIDs.NT_AUTHORITY;
   mkACE ACCESS_ALLOWED_ACE_TYPE inheritable con.FILE_ALL_ACCESS
         WellKnownSIDs.ADMINS].

(** ** A school share, for the concrete cases *)

Module Scenario.

Definition students : PySID := "S-1-5-21-1004336348-1177238915-682003330-1104".
Definition teachers : PySID := "S-1-5-21-1004336348-1177238915-682003330-1105".

(** The SID the students group had in the domain it was migrated from;
    the directory keeps it in the SID history of the group, and the
    system resolves it to the group. *)
Definition students_history : PySID :=
  "S-1-5-21-3623811015-3361044348-30300820-2107".

Definition school_accounts : gmap PySID Account :=
  list_to_map
    [(WellKnownSIDs.NT_AUTHORITY, ("SYSTEM", "NT AUTHORITY", 5));
     (WellKnownSIDs.ADMINS, ("Administrators", "BUILTIN", 4));
     (students, ("students", "SCHOOL", 2));
     (teachers, ("teachers", "SCHOOL", 2))].

(** The full path of a path on this machine, where the current drive is
    [C:] and the current directory of every drive is its root: a path
    without drive is on [C:], a path that is not rooted starts at the
    root.  The system also trims dots and spaces at the end of a name,
    which is left out. *)
Definition full_path (path : string) : string :=
  let path := str.replace "/" "\" path in
  if String.prefix "\\" path then normpath path
  else
    let '(drive, rest) := splitdrive path in
    normpath ((if bool_decide (drive = "") then "C:" else drive) ++ "\" ++ rest).

Definition host : Host :=
  {| accounts := school_accounts;
     account_names := list_to_map [("students", students); ("teachers", teachers)];
     abspath := full_path;
     created_sd := λ _ _, {| Dacl := []; dacl_protected := false |} |}.

Definition host_migrated : Host :=
  {| accounts := <[students_history := ("students", "SCHOOL", 2)]> school_accounts;
     account_names := account_names host;
     abspath := abspath host;
     created_sd := created_sd host |}.

Definition allow (mask : Z) (sid : PySID) : ACE :=
  mkACE ACCESS_ALLOWED_ACE_TYPE 3 mask sid.

(** The directory [C:\a] with [a\1.txt], [a\2.txt] and [a\b\3.txt]. *)
Definition tree : Tree :=
  Folder "C:\" [Folder "a" [Folder "b" [] ["3.txt"]] ["1.txt"; "2.txt"]] [].

Definition a : Directory := {| _path := "C:\a" |}.

Definition unprotected (dacl : PyACL) : SECURITY_DESCRIPTOR :=
  {| Dacl := dacl; dacl_protected := false |}.

(** Every object has the two entries of a reset; [a\1.txt] has full
    control for the students on top. *)
Definition os0 : OS :=
  {| volume := tree;
     security := list_to_map
       [("C:\", {| Dacl := baseline_entries; dacl_protected := true |});
        ("C:\a", unprotected baseline_entries);
        ("C:\a\b", unprotected baseline_entries);
        ("C:\a\1.txt",
         unprotected (baseline_entries ++ [allow con.FILE_ALL_ACCESS students]));
        ("C:\a\2.txt", unprotected baseline_entries);
        ("C:\a\b\3.txt", unprotected baseline_entries)];
     calls := [] |}.

(** The same share where [C:\a] still carries an entry for the old SID
    of the students next to one for the current SID. *)
Definition os_migrated : OS :=
  {| volume := tree;
     security :=
       <["C:\a" := unprotected (baseline_entries
                                ++ [allow (value READ) students_history;
                                    allow (value READ) students])]>
         (security os0);
     calls := [] |}.

End Scenario.

(** ** More of [filesystem.py] *)

Section ListDir.

(** The order in which the system lists the names of a folder, folders
    and files together: [os.listdir] returns them "in arbitrary order",
    so the order is taken as the machine gives it. *)
Context (host : Host) (enumeration : list string → list string).

(** [os.listdir(path)]: the names in the folder at the place [path]
    names.  What is no folder raises: [FileNotFoundError] when nothing
    is there, and for a file the subclass [NotADirectoryError] of
    [OSError], shown as [OSError]. *)
Definition os_listdir (path : string) : Py (list string) := λ os,
  match find_folder_at host (volume os) path with
  | Some (Folder _ dirs files) =>
      (Return (enumeration (map folder_name dirs ++ files)), os)
  | None =>
      if bool_decide (exists_at host (volume os) path)
      then (Raise (OSError path), os)
      else (Raise (FileNotFoundError path), os)
  end.

(** [Directory.list_dir_content]: a generator expression, whose
    [os.listdir(self.path)] is evaluated when the method is called. *)
Definition list_dir_content (self : Directory) : Py Iterable :=
  contents ← os_listdir (path self);
  mret (PyGenerator (map (λ content, os_path_join (path self) content) contents)).

End ListDir.

(** The paths of all folders and files of the tree [t] found at [top],
    [top] first. *)
Definition paths_under (top : string) (t : Tree) : list string :=
  flat_map (λ entry, entry.1 :: files_of entry) (folders top t).

(** The paths a walk of [t] from [top] joins, in the order
    [list_subdirectories_recurs] goes through them, before [abspath]. *)
Definition walked (top : string) (t : Tree) : list string :=
  flat_map (λ '(dir_name, dir_names, file_names),
              map (os_path_join dir_name) dir_names
              ++ map (os_path_join dir_name) file_names)
    (os_walk top t).


Section Shell.

(** The standard library below [copy_to] and [move_dir_to], taken as it
    comes: [os.path.dirname], [os.makedirs(path, exist_ok=True)],
    [shutil.copy] and [shutil.move], each free to change the machine or
    to raise. *)
Context (host : Host)
        (os_path_dirname : string → string)
        (os_makedirs : string → Py unit)
        (shutil_copy shutil_move : string → string → Py unit).

(** [copy_to(source_path, destination_path, overwrite=False)].  The
    destination is looked at only when the source exists and [overwrite]
    is unset. *)
Definition copy_to (source_path destination_path : string) (overwrite : bool)
  : Py bool :=
  exists_ ← file_or_dir_exists host source_path;
  proceed ← (if exists_ : bool
             then if overwrite then mret true
                  else taken ← file_or_dir_exists host destination_path;
                       mret (negb taken)
             else mret false);
  if proceed : bool then
    os_makedirs (os_path_dirname destination_path);;
    shutil_copy source_path destination_path;;
    mret true
  else
    mret false.

(** [Directory.move_dir_to(destination, overwrite)]: what it returns,
    and the instance afterwards.  When it raises, the instance is as it
    was. *)
Definition move_dir_to (self : Directory) (destination : string) (overwrite : bool)
  : Py (bool * Directory) :=
  taken ← file_or_dir_exists host destination;
  if negb taken || overwrite then
    os_makedirs (os_path_dirname destination);;
    shutil_move (path self) destination;;
    match path_setter self (PyStr destination) with
    | (Return _, self') => mret (true, self')
    | (Raise e, _) => lift (Raise e)
    end
  else
    mret (false, self).

End Shell.


(** ** The modules beside [filesystem.py]: [dns.py] and [user_list.py] *)

(** [src/code/dns.py], whose [dns_ldap_path_switcher] gives
    [initialize.py] its LDAP path. *)
Module dns.

Inductive Error : Set := NotAValidDNS.

Definition _is_std_dns (dns : string) : bool :=
  if bool_decide (dns ≠ "") then
    let dns := str.split "." dns in
    if negb (bool_decide (1 < length dns)%nat) then false else true
  else false.

(** The loop over the pieces returns [False] at the first piece that
    does not begin with [dc=]. *)
Definition _is_ldap_dns (dns : string) : bool :=
  if bool_decide (dns ≠ "") then
    let dns := str.split "," dns in
    forallb (λ e, bool_decide (substring 0 3 e = "dc=")) dns
  else false.

Definition dns_ldap_path_switcher (dns : string) : Error + string :=
  if _is_ldap_dns dns then
    let dns := str.split "," dns in
    let dns := str.join "." dns in
    inr (str.replace "dc=" "" dns)
  else if _is_std_dns dns then
    let dns := str.split "." dns in
    let dns := str.join ",dc=" dns in
    inr ("dc=" ++ dns)%string
  else inl NotAValidDNS.

End dns.

(** [src/code/user_list.py].  A file is the list of its lines. *)
Module user_list.

(** [line[i]]. *)
Definition getitem (line : list string) (i : nat) : Outcome string :=
  match line !! i with
  | Some field => Return field
  | None => Raise IndexError
  end.

(** The body of the loop: the dictionary made of one line, split at the
    semicolons when there are at least as many of them as commas. *)
Definition user_of_line (line : string) : Outcome (gmap string string) :=
  let line :=
    if bool_decide (str.count "," line ≤ str.count ";" line)%nat
    then str.split ";" line
    else str.split "," line in
  sn ← getitem line 0;
  givenName ← getitem line 1;
  class ← getitem line 2;
  birthday ← getitem line 3;
  mret (<["sn" := sn]> (<["givenName" := givenName]> (<["class" := class]>
         (<["birthday" := str.strip birthday]> ∅)))).

Fixpoint append_users (file : list string) (user_lst : list (gmap string string))
  : Outcome (list (gmap string string)) :=
  match file with
  | [] => Return user_lst
  | line :: file =>
      user ← user_of_line line;
      append_users file (user_lst ++ [user])
  end.

Definition __file_content_to_lst__ (file : list string)
  : Outcome (list (gmap string string)) :=
  match append_users file [] with
  | Raise IndexError => Return []
  | outcome => outcome
  end.

End user_list.

(** The number of separators of a line that count: those of the
    separator the loop splits at. *)
Definition separators (line : string) : nat :=
  max (str.count ";" line) (str.count "," line).



(** ** The school share when something is wrong *)

Module Cases.

Import Scenario.

(** The host where the administrators can be named. *)
Definition host_admins : Host :=
  {| accounts := school_accounts;
     account_names := <["Administrators" := WellKnownSIDs.ADMINS]> (account_names host);
     abspath := abspath host;
     created_sd := created_sd host |}.

(** The share where the descriptor of [C:\a] cannot be read. *)
Definition os_unreadable : OS :=
  {| volume := tree;
     security := delete "C:\a" (security os0);
     calls := [] |}.

(** The share where the descriptor of [a\2.txt] cannot be read. *)
Definition os_partly_unreadable : OS :=
  {| volume := tree;
     security := delete "C:\a\2.txt" (security os0);
     calls := [] |}.

(** The SID of an account that has been deleted. *)
Definition orphan : PySID := "S-1-5-21-1004336348-1177238915-682003330-1199".

(** The share where [C:\a] still carries an entry for that account. *)
Definition os_orphaned : OS :=
  {| volume := tree;
     security :=
       <["C:\a" := unprotected (baseline_entries ++ [allow (value READ) orphan])]>
         (security os0);
     calls := [] |}.

Definition targets : list string :=
  ["C:\a\b"; "C:\a\1.txt"; "C:\a\2.txt"; "C:\a\b\3.txt"].

(** A directory object for a path where nothing is. *)
Definition z : Directory := {| _path := "C:\z" |}.

(** A listing order: by name. *)
Definition by_name (names : list string) : list string :=
  merge_sort (λ x y, Is_true (String.leb x y)) names.

(** Library calls that return and change nothing. *)
Definition dirname_root (path : string) : string := "C:\".
Definition makedirs_done (path : string) : Py unit := mret tt.
Definition transfer_done (source destination : string) : Py unit := mret tt.

End Cases.


(** * Properties *)

(** The values [tests/test_constants.py] expects. *)
Example value_table :
  map value [READ; READ_WRITE; DELETE; MODIFY; FULL_CONTROL]
  = [1179785; 1180063; 65536; -1072496480; 2032127].
Proof. reflexivity. Qed.

(** C6. The flag composer is a function of its two booleans: each of the
    four inputs gives a fixed pair, the four pairs are pairwise distinct;
    [propagation = true] sets the container-inherit and the object-inherit
    ACE flags and [propagation = false] sets no ACE flag at all;
    [inherits = false] marks the update flags protected (and not
    unprotected), [inherits = true] marks them unprotected (and not
    protected), whatever the other boolean is. *)
Theorem set_flags_table :
  _set_flags true true = (536870916, 3)
  ∧ _set_flags true false = (536870916, 0)
  ∧ _set_flags false true = (-2147483644, 3)
  ∧ _set_flags false false = (-2147483644, 0)
  ∧ NoDup [_set_flags true true; _set_flags true false;
           _set_flags false true; _set_flags false false]
  ∧ (∀ inherits,
       Z.testbit (_set_flags inherits true).2 1 = true
       ∧ Z.testbit (_set_flags inherits true).2 0 = true
       ∧ (_set_flags inherits true).2
         = Z.lor win32security.CONTAINER_INHERIT_ACE
                 win32security.OBJECT_INHERIT_ACE
       ∧ (_set_flags inherits false).2 = win32security.NO_INHERITANCE
       ∧ (∀ n, Z.testbit (_set_flags inherits false).2 n = false))
  ∧ (∀ propagation,
       Z.testbit (_set_flags false propagation).1
                 win32security.bit_PROTECTED_DACL = true
       ∧ Z.testbit (_set_flags false propagation).1
                   win32security.bit_UNPROTECTED_DACL = false
       ∧ Z.testbit (_set_flags true propagation).1
                   win32security.bit_UNPROTECTED_DACL = true
       ∧ Z.testbit (_set_flags true propagation).1
                   win32security.bit_PROTECTED_DACL = false).
Proof.
  split_and!; try reflexivity.
  - apply NoDup_cons; split; [ | apply NoDup_cons; split;
      [ | apply NoDup_cons; split; [ | apply NoDup_singleton ] ] ];
      rewrite ?elem_of_cons, elem_of_nil; cbv; intuition congruence.
  - intros [|]; split_and!; try reflexivity; intros n; apply Z.bits_0.
  - intros [|]; split_and!; reflexivity.
Qed.

(** ** The loop of [reset_user_permissions] *)

Section Strip.

Context (host : Host).

Lemma strip_loop_step principal i ace_count dacl :
  strip_loop host principal i ace_count dacl =
  if decide (i < ace_count)%nat
  then ace ← GetAce dacl i;
       user ← LookupAccountSid host (ace_sid ace);
       user_to_delete ← LookupAccountSid host principal;
       if decide (user = user_to_delete)
       then strip_loop host principal i (ace_count - 1) (DeleteAce dacl i)
       else strip_loop host principal (i + 1) ace_count dacl
  else Return dacl.
Proof.
  rewrite strip_loop_equation_1.
  destruct (decide (i < ace_count)%nat); reflexivity.
Qed.

Lemma strip_loop_from k principal : ∀ i dacl,
  length dacl = (i + k)%nat →
  strip_loop host principal i (length dacl) dacl =
  (rest ← strip_list host principal (drop i dacl); Return (take i dacl ++ rest)).
Proof.
  induction k as [|k IH]; intros i dacl Hlen.
  - rewrite strip_loop_step.
    destruct (decide (i < length dacl)%nat); [lia|].
    rewrite drop_ge, take_ge by lia. simpl. by rewrite app_nil_r.
  - rewrite strip_loop_step.
    destruct (decide (i < length dacl)%nat); [|lia].
    destruct (lookup_lt_is_Some_2 dacl i) as [ace Hace]; [done|].
    unfold GetAce. rewrite Hace. simpl.
    rewrite (drop_S _ _ _ Hace). simpl.
    destruct (LookupAccountSid host (ace_sid ace)) as [user|]; simpl; [|done].
    destruct (LookupAccountSid host principal) as [user_to_delete|]; simpl; [|done].
    destruct (decide (user = user_to_delete)).
    + unfold DeleteAce.
      assert (Hdel : length (delete i dacl) = (i + k)%nat).
      { rewrite length_delete by eauto. lia. }
      replace (length dacl - 1)%nat with (length (delete i dacl)) by lia.
      rewrite IH by done.
      rewrite delete_take_drop.
      rewrite drop_app_length', take_app_length' by (rewrite length_take; lia).
      done.
    + replace (i + 1)%nat with (S i) by lia.
      rewrite IH by lia.
      destruct (strip_list host principal (drop (S i) dacl)) as [rest|]; simpl; [|done].
      rewrite (take_S_r _ _ _ Hace), <- app_assoc. done.
Qed.

(** From the first entry on, the loop is the entry-by-entry pass. *)
Lemma strip_loop_all principal dacl :
  strip_loop host principal 0 (GetAceCount dacl) dacl = strip_list host principal dacl.
Proof.
  unfold GetAceCount. rewrite (strip_loop_from (length dacl)) by done.
  rewrite drop_0, take_0. simpl.
  by destruct (strip_list host principal dacl).
Qed.

End Strip.

Section StripList.

Context (host : Host).

Lemma LookupAccountSid_Return sid :
  resolvable host sid →
  ∃ account, accounts host !! sid = Some account
             ∧ LookupAccountSid host sid = Return account.
Proof.
  intros [account Hsid]. exists account. unfold LookupAccountSid.
  by rewrite Hsid.
Qed.

Lemma strip_list_resolved principal dacl :
  Forall (λ ace, resolvable host (ace_sid ace)) dacl →
  resolvable host principal →
  strip_list host principal dacl = Return (stripped host principal dacl).
Proof.
  intros Hall Hp. unfold stripped.
  destruct (LookupAccountSid_Return _ Hp) as (target & Htarget & Hlookup).
  induction Hall as [|ace dacl Hace _ IH]; [done|].
  destruct (LookupAccountSid_Return _ Hace) as (user & Huser & Hlookup').
  simpl. rewrite Hlookup', Hlookup, IH. simpl.
  destruct (decide (user = target)) as [->|Hne].
  - rewrite filter_cons_False; [done|].
    unfold same_account. rewrite Huser, Htarget. tauto.
  - rewrite filter_cons_True; [done|].
    unfold same_account. rewrite Huser, Htarget. congruence.
Qed.

(** What a pass that returns has found on its way. *)
Lemma strip_list_Return principal dacl dacl' :
  strip_list host principal dacl = Return dacl' →
  dacl' = stripped host principal dacl
  ∧ Forall (λ ace, resolvable host (ace_sid ace)) dacl
  ∧ (dacl ≠ [] → resolvable host principal).
Proof.
  revert dacl'. induction dacl as [|ace dacl IH]; intros dacl' Hret.
  - simpl in Hret. injection Hret as <-. done.
  - simpl in Hret. unfold LookupAccountSid in Hret.
    destruct (accounts host !! ace_sid ace) as [user|] eqn:Huser; [|done].
    destruct (accounts host !! principal) as [target|] eqn:Htarget; [|done].
    simpl in Hret.
    assert (Hstep : ∀ rest, strip_list host principal dacl = Return rest →
              rest = stripped host principal dacl
              ∧ Forall (λ ace, resolvable host (ace_sid ace)) (ace :: dacl)
              ∧ (ace :: dacl ≠ [] → resolvable host principal)).
    { intros rest Hrest. destruct (IH _ Hrest) as (-> & Hall & _).
      split_and!; [done| |by exists target].
      constructor; [by exists user|done]. }
    unfold stripped in *. destruct (decide (user = target)) as [->|Hne].
    + destruct (Hstep _ Hret) as (-> & ? & ?). split_and!; [|done..].
      rewrite filter_cons_False; [done|].
      unfold same_account. rewrite Huser, Htarget. tauto.
    + destruct (strip_list host principal dacl) as [rest|]; [|done].
      simpl in Hret. injection Hret as <-.
      destruct (Hstep rest eq_refl) as (-> & ? & ?). split_and!; [|done..].
      rewrite filter_cons_True; [done|].
      unfold same_account. rewrite Huser, Htarget. congruence.
Qed.

Lemma stripped_idemp principal dacl :
  stripped host principal (stripped host principal dacl)
  = stripped host principal dacl.
Proof.
  unfold stripped. rewrite list_filter_filter. apply list_filter_iff. tauto.
Qed.

Lemma strip_list_again principal dacl dacl' :
  strip_list host principal dacl = Return dacl' →
  strip_list host principal dacl' = Return dacl'.
Proof.
  intros Hret. destruct (strip_list_Return _ _ _ Hret) as (-> & Hall & Hp).
  destruct (stripped host principal dacl) as [|ace rest] eqn:Hrest; [done|].
  rewrite <- Hrest. rewrite strip_list_resolved.
  - by rewrite stripped_idemp.
  - unfold stripped. rewrite Forall_forall in *. intros ace' Hin.
    apply list_elem_of_filter in Hin. destruct Hin as [_ Hin]. auto.
  - apply Hp. intros ->. done.
Qed.

(** No entry that carries the SID of the principal survives. *)
Lemma entries_of_stripped principal dacl :
  entries_of principal (stripped host principal dacl) = [].
Proof.
  unfold entries_of, stripped. rewrite list_filter_filter.
  induction dacl as [|ace dacl IH]; [done|].
  rewrite filter_cons_False; [done|].
  unfold same_account. intros [-> Hne]. by apply Hne.
Qed.

Lemma stripped_absent principal dacl :
  Forall (λ ace, ¬ same_account host principal ace) dacl →
  stripped host principal dacl = dacl.
Proof.
  unfold stripped. induction 1 as [|ace dacl Hace _ IH]; [done|].
  by rewrite filter_cons_True, IH.
Qed.

End StripList.

(** ** What each operation does to the machine *)

Section Operations.

Context (host : Host).

Lemma reset_user_permissions_Return path principal os sd dacl' :
  security os !! path = Some sd →
  strip_list host principal (Dacl sd) = Return dacl' →
  reset_user_permissions host path principal os
  = (Return (SetSecurityDescriptorDacl sd dacl'),
     after_SetFileSecurity path (SetSecurityDescriptorDacl sd dacl') os).
Proof.
  intros Hsd Hstrip.
  unfold reset_user_permissions, GetFileSecurity, SetFileSecurity,
    read_security, write_security, record, lift, mbind, Py_bind, mret, Py_ret.
  simpl. rewrite Hsd. unfold GetSecurityDescriptorDacl.
  rewrite strip_loop_all, Hstrip. simpl. by rewrite Hsd.
Qed.

Lemma reset_user_permissions_Raise path principal os sd e :
  security os !! path = Some sd →
  strip_list host principal (Dacl sd) = Raise e →
  reset_user_permissions host path principal os
  = (Raise e, logged (CallGetFileSecurity path) os).
Proof.
  intros Hsd Hstrip.
  unfold reset_user_permissions, GetFileSecurity, SetFileSecurity,
    read_security, write_security, record, lift, mbind, Py_bind, mret, Py_ret.
  simpl. rewrite Hsd. unfold GetSecurityDescriptorDacl.
  by rewrite strip_loop_all, Hstrip.
Qed.

Lemma reset_user_permissions_unreadable path principal os :
  security os !! path = None →
  reset_user_permissions host path principal os
  = (Raise (pywintypes_error "GetFileSecurity"),
     logged (CallGetFileSecurity path) os).
Proof.
  intros Hsd.
  unfold reset_user_permissions, GetFileSecurity, read_security, record,
    mbind, Py_bind.
  simpl. by rewrite Hsd.
Qed.

Lemma _reset_permissions_Return path os sd :
  security os !! path = Some sd →
  let sd' := {| Dacl := [mkACE ACCESS_ALLOWED_ACE_TYPE 3 con.FILE_ALL_ACCESS
                           WellKnownSIDs.NT_AUTHORITY;
                         mkACE ACCESS_ALLOWED_ACE_TYPE 3 con.FILE_ALL_ACCESS
                           WellKnownSIDs.ADMINS];
                dacl_protected := dacl_protected sd |} in
  _reset_permissions path os = (Return sd', after_SetFileSecurity path sd' os).
Proof.
  intros Hsd.
  unfold _reset_permissions, GetFileSecurity, SetFileSecurity,
    read_security, write_security, record, mbind, Py_bind, mret, Py_ret.
  simpl. rewrite Hsd. simpl. by rewrite Hsd.
Qed.

Lemma reset_permissions_alone self os sd :
  security os !! path self = Some sd →
  reset_permissions host self false os
  = (Return tt,
     after_SetFileSecurity (path self)
       {| Dacl := baseline_entries; dacl_protected := dacl_protected sd |} os).
Proof.
  intros Hsd. unfold reset_permissions, for_in, for_each.
  unfold mbind, Py_bind, mret, Py_ret.
  by rewrite (_reset_permissions_Return _ _ sd).
Qed.

Lemma SetNamedSecurityInfo_Return path inherits propagation dacl os sd :
  security os !! path = Some sd →
  SetNamedSecurityInfo path (_set_flags inherits propagation).1 dacl
    (logged (CallGetNamedSecurityInfo path) os)
  = (Return tt, after_SetNamedSecurityInfo path inherits propagation dacl os).
Proof.
  intros Hsd.
  unfold SetNamedSecurityInfo, read_security, write_security, record,
    mbind, Py_bind.
  cbn [logged security]. rewrite Hsd.
  unfold after_SetNamedSecurityInfo. do 3 f_equal;
    by destruct inherits, propagation.
Qed.

Lemma _grant_permission_Return sid path level inherits propagation os sd :
  security os !! path = Some sd →
  let dacl := AddAccessAllowedAceEx (Dacl sd) (_set_flags inherits propagation).2
                (value level) sid in
  _grant_permission sid path level inherits propagation os
  = (Return (SetSecurityDescriptorDacl sd dacl),
     after_SetNamedSecurityInfo path inherits propagation dacl os).
Proof.
  intros Hsd dacl.
  unfold _grant_permission.
  destruct (_set_flags inherits propagation) as [flags ace_flags] eqn:Hflags.
  unfold try_GetNamedSecurityInfo, GetNamedSecurityInfo, read_security, record.
  unfold mbind, Py_bind. cbn [logged security]. rewrite Hsd.
  pose proof (SetNamedSecurityInfo_Return path inherits propagation dacl os sd Hsd)
    as Hset.
  rewrite Hflags in Hset. cbn [fst] in Hset.
  unfold GetSecurityDescriptorDacl. subst dacl. cbn [snd] in *.
  by rewrite Hset.
Qed.

Lemma _deny_permission_Return sid path level inherits propagation os sd :
  security os !! path = Some sd →
  let dacl := AddAccessDeniedAceEx (Dacl sd) (_set_flags inherits propagation).2
                (value level) sid in
  _deny_permission sid path level inherits propagation os
  = (Return (SetSecurityDescriptorDacl sd dacl),
     after_SetNamedSecurityInfo path inherits propagation dacl os).
Proof.
  intros Hsd dacl.
  unfold _deny_permission.
  destruct (_set_flags inherits propagation) as [flags ace_flags] eqn:Hflags.
  unfold try_GetNamedSecurityInfo, GetNamedSecurityInfo, read_security, record.
  unfold mbind, Py_bind. cbn [logged security]. rewrite Hsd.
  pose proof (SetNamedSecurityInfo_Return path inherits propagation dacl os sd Hsd)
    as Hset.
  rewrite Hflags in Hset. cbn [fst] in Hset.
  unfold GetSecurityDescriptorDacl. subst dacl. cbn [snd] in *.
  by rewrite Hset.
Qed.

End Operations.

(** ** Reset of all entries, and the strip of one principal *)

Section Reset.

Context (host : Host).

(** C5, as the code has it. On a path whose descriptor can be read,
    [_reset_permissions] (and [reset_permissions] without recursion, on
    the path of the directory) discards every entry and installs exactly
    two Allow entries with the full-control mask, for the system
    authority and for the administrators, with the ACE flags of
    [_set_flags(inherits=False, propagation=True)], container- and
    object-inherit.  The other half of that pair is dropped and the
    write passes no protection flag: the protection of the descriptor
    stays what it was. *)
Theorem reset_permissions_baseline (self : Directory) (target : string)
    (os : OS) (sd sd_self : SECURITY_DESCRIPTOR) :
  security os !! target = Some sd →
  security os !! path self = Some sd_self →
  let sd' := {| Dacl := baseline_entries; dacl_protected := dacl_protected sd |} in
  let sd_self' := {| Dacl := baseline_entries;
                     dacl_protected := dacl_protected sd_self |} in
  _reset_permissions target os = (Return sd', after_SetFileSecurity target sd' os)
  ∧ security (after_SetFileSecurity target sd' os) !! target = Some sd'
  ∧ calls (after_SetFileSecurity target sd' os)
    = calls os ++ [CallGetFileSecurity target; CallSetFileSecurity target sd']
  ∧ reset_permissions host self false os
    = (Return tt, after_SetFileSecurity (path self) sd_self' os)
  ∧ baseline_entries
    = [mkACE ACCESS_ALLOWED_ACE_TYPE
         (Z.lor win32security.CONTAINER_INHERIT_ACE win32security.OBJECT_INHERIT_ACE)
         (value FULL_CONTROL) WellKnownSIDs.NT_AUTHORITY;
       mkACE ACCESS_ALLOWED_ACE_TYPE
         (Z.lor win32security.CONTAINER_INHERIT_ACE win32security.OBJECT_INHERIT_ACE)
         (value FULL_CONTROL) WellKnownSIDs.ADMINS].
Proof.
  intros Hsd Hself sd' sd_self'. split_and!.
  - by rewrite (_reset_permissions_Return _ _ sd).
  - simpl. apply lookup_insert_eq.
  - simpl. by rewrite <- app_assoc.
  - by apply reset_permissions_alone.
  - reflexivity.
Qed.

(** C7, as the code has it. On a path whose descriptor can be read and
    whose entries all resolve to an account, as the principal does,
    [reset_user_permissions] removes exactly the entries whose SID
    resolves to the account the principal resolves to, and writes the
    rest back in their order. Every entry that carries the SID of the
    principal is among the removed ones, whatever the account is called
    at the time; an entry stays when its SID resolves to another
    account. *)
Theorem reset_user_permissions_strips (target : string) (principal : PySID)
    (os : OS) (sd : SECURITY_DESCRIPTOR) :
  security os !! target = Some sd →
  Forall (λ ace, resolvable host (ace_sid ace)) (Dacl sd) →
  resolvable host principal →
  let sd' := {| Dacl := stripped host principal (Dacl sd);
                dacl_protected := dacl_protected sd |} in
  reset_user_permissions host target principal os
  = (Return sd', after_SetFileSecurity target sd' os)
  ∧ security (after_SetFileSecurity target sd' os) = <[target := sd']> (security os)
  ∧ (∀ ace, ace ∈ Dacl sd' ↔
            ace ∈ Dacl sd
            ∧ accounts host !! ace_sid ace ≠ accounts host !! principal)
  ∧ (∀ ace, ace ∈ Dacl sd → ace_sid ace = principal → ace ∉ Dacl sd')
  ∧ Dacl sd' `sublist_of` Dacl sd.
Proof.
  intros Hsd Hall Hp sd'. split_and!.
  - by rewrite (reset_user_permissions_Return _ _ _ _ sd
                  (stripped host principal (Dacl sd)))
      by (done || by apply strip_list_resolved).
  - done.
  - intros ace. simpl. unfold stripped. rewrite list_elem_of_filter.
    unfold same_account. tauto.
  - intros ace _ Hsid. simpl. unfold stripped. rewrite list_elem_of_filter.
    unfold same_account. intros [Hne _]. apply Hne. by rewrite Hsid.
  - simpl. apply sublist_filter.
Qed.

(** C8, as the code has it. A second [reset_user_permissions] for the
    same path and principal right after a first one has the outcome of the
    first, the same result or the same error, and leaves every descriptor
    as the first left it, whatever the first did.
    On a path whose descriptor can be read and whose entries all resolve,
    as the principal does, a principal none of the entries belongs to is
    stripped without an error and with no descriptor changed. *)
Theorem reset_user_permissions_idempotent (target : string) (principal : PySID)
    (os : OS) :
  let first := reset_user_permissions host target principal os in
  let second := reset_user_permissions host target principal first.2 in
  second.1 = first.1
  ∧ security second.2 = security first.2
  ∧ (∀ sd,
       security os !! target = Some sd →
       Forall (λ ace, resolvable host (ace_sid ace)) (Dacl sd) →
       resolvable host principal →
       Forall (λ ace, ¬ same_account host principal ace) (Dacl sd) →
       first.1 = Return sd ∧ security first.2 = security os).
Proof.
  intros first second. subst second first.
  destruct (security os !! target) as [sd|] eqn:Hsd.
  - destruct (strip_list host principal (Dacl sd)) as [dacl'|e] eqn:Hstrip.
    + rewrite (reset_user_permissions_Return _ _ _ os sd dacl') by done.
      cbn [fst snd].
      rewrite (reset_user_permissions_Return _ _ _ _
                 (SetSecurityDescriptorDacl sd dacl') dacl').
      * split_and!; [done|simpl; by rewrite insert_insert_eq|].
        intros ? [= <-] Hall Hp Habsent. cbn [fst snd].
        rewrite strip_list_resolved in Hstrip by done.
        rewrite stripped_absent in Hstrip by done.
        injection Hstrip as <-. destruct sd as [dacl protected].
        split; [done|]. simpl. by apply insert_id.
      * simpl. apply lookup_insert_eq.
      * simpl. by apply strip_list_again with (Dacl sd).
    + rewrite (reset_user_permissions_Raise _ _ _ os sd e) by done.
      cbn [fst snd].
      rewrite (reset_user_permissions_Raise _ _ _ _ sd e) by done.
      split_and!; [done..|].
      intros ? [= <-] Hall Hp _. by rewrite strip_list_resolved in Hstrip.
  - rewrite (reset_user_permissions_unreadable _ _ _ os) by done. cbn [fst snd].
    rewrite reset_user_permissions_unreadable by done.
    split_and!; [done..|]. intros ? [=].
Qed.

End Reset.

(** ** The reset and the strip on the school share *)

Section ResetCases.

Import Scenario.

Lemma reset_permissions_baseline_witness :
  security os0 !! "C:\a\b" = Some (unprotected baseline_entries)
  ∧ security os0 !! path a = Some (unprotected baseline_entries)
  ∧ _reset_permissions "C:\a\b" os0
    = (Return (unprotected baseline_entries),
       after_SetFileSecurity "C:\a\b" (unprotected baseline_entries) os0).
Proof.
  split_and!; [reflexivity..|].
  apply (reset_permissions_baseline host a "C:\a\b" os0
           (unprotected baseline_entries) (unprotected baseline_entries));
    reflexivity.
Defined.

(** A reset does not protect: [C:\a] is not protected before the reset,
    and the descriptor the reset writes back and returns is not protected
    either. *)
Lemma reset_permissions_not_protected :
  ∃ sd os',
    _reset_permissions "C:\a" os0 = (Return sd, os')
    ∧ security os' !! "C:\a" = Some sd
    ∧ calls os' = [CallGetFileSecurity "C:\a"; CallSetFileSecurity "C:\a" sd]
    ∧ Dacl sd = baseline_entries
    ∧ dacl_protected sd = false.
Proof.
  exists (unprotected baseline_entries),
    (after_SetFileSecurity "C:\a" (unprotected baseline_entries) os0).
  split_and!; reflexivity.
Qed.

Lemma reset_user_permissions_strips_witness :
  let dacl := baseline_entries ++ [allow (value READ) students_history;
                                   allow (value READ) students] in
  let sd' := unprotected (stripped host_migrated students dacl) in
  security os_migrated !! "C:\a" = Some (unprotected dacl)
  ∧ Forall (λ ace, resolvable host_migrated (ace_sid ace)) dacl
  ∧ resolvable host_migrated students
  ∧ allow (value READ) students ∈ dacl
  ∧ reset_user_permissions host_migrated "C:\a" students os_migrated
    = (Return sd', after_SetFileSecurity "C:\a" sd' os_migrated)
  ∧ stripped host_migrated students dacl = baseline_entries
  ∧ (allow (value READ) students ∉ stripped host_migrated students dacl)
  ∧ stripped host_migrated students dacl `sublist_of` dacl.
Proof.
  intros dacl sd'.
  assert (Hsd : security os_migrated !! "C:\a" = Some (unprotected dacl))
    by reflexivity.
  assert (Hall : Forall (λ ace, resolvable host_migrated (ace_sid ace)) dacl)
    by compute_done.
  assert (Hp : resolvable host_migrated students) by (eexists; reflexivity).
  assert (Hmine : allow (value READ) students ∈ dacl) by compute_done.
  destruct (reset_user_permissions_strips host_migrated "C:\a" students os_migrated
              (unprotected dacl) Hsd Hall Hp)
    as (Hcall & _ & _ & Hgone & Hsub).
  split_and!; [done|done|done|done|exact Hcall|compute_done| |exact Hsub].
  by apply (Hgone (allow (value READ) students) Hmine).
Defined.

(** The strip goes by account, not by SID: stripping the students on
    [C:\a] also removes the entry of another SID, the one of the group's
    SID history, because both SIDs resolve to the same account. *)
Lemma strip_removes_other_sid :
  let other := allow (value READ) students_history in
  ace_sid other ≠ students
  ∧ ∃ sd sd' os',
      security os_migrated !! "C:\a" = Some sd
      ∧ other ∈ Dacl sd
      ∧ reset_user_permissions host_migrated "C:\a" students os_migrated
        = (Return sd', os')
      ∧ security os' !! "C:\a" = Some sd'
      ∧ Dacl sd' = baseline_entries
      ∧ other ∉ Dacl sd'.
Proof.
  split; [done|].
  exists (unprotected (baseline_entries ++ [allow (value READ) students_history;
                                            allow (value READ) students])),
    (unprotected baseline_entries),
    (after_SetFileSecurity "C:\a" (unprotected baseline_entries) os_migrated).
  split_and!; compute_done.
Qed.

(** Not a no-op on every path: on the share where [C:\a] still carries
    an entry of a deleted account, the teachers hold no entry on [C:\a],
    the descriptor can be read, and the strip of the teachers raises the
    error of [LookupAccountSid], as does a second strip after it. *)
Lemma strip_absent_principal_raises :
  let dacl := baseline_entries ++ [allow (value READ) Cases.orphan] in
  let first := reset_user_permissions host "C:\a" teachers Cases.os_orphaned in
  let second := reset_user_permissions host "C:\a" teachers first.2 in
  security Cases.os_orphaned !! "C:\a" = Some (unprotected dacl)
  ∧ entries_of teachers dacl = []
  ∧ Forall (λ ace, ¬ same_account host teachers ace) dacl
  ∧ resolvable host teachers
  ∧ first.1 = Raise (pywintypes_error "LookupAccountSid")
  ∧ first.1 ≠ Return (unprotected dacl)
  ∧ second.1 = Raise (pywintypes_error "LookupAccountSid").
Proof.
  split_and!;
    [reflexivity|compute_done|compute_done|compute_done|
     by vm_compute|by vm_compute|by vm_compute].
Qed.

Lemma reset_user_permissions_idempotent_witness :
  security os0 !! "C:\a" = Some (unprotected baseline_entries)
  ∧ Forall (λ ace, resolvable host (ace_sid ace)) baseline_entries
  ∧ resolvable host teachers
  ∧ Forall (λ ace, ¬ same_account host teachers ace) baseline_entries
  ∧ (reset_user_permissions host "C:\a" teachers os0).1
    = Return (unprotected baseline_entries)
  ∧ security (reset_user_permissions host "C:\a" teachers os0).2 = security os0.
Proof.
  assert (Hall : Forall (λ ace, resolvable host (ace_sid ace)) baseline_entries).
  { compute_done. }
  assert (Hp : resolvable host teachers) by (eexists; reflexivity).
  assert (Habsent : Forall (λ ace, ¬ same_account host teachers ace)
                      baseline_entries).
  { compute_done. }
  split_and!; [reflexivity|done..| |];
    apply (proj2 (proj2 (reset_user_permissions_idempotent host "C:\a" teachers os0))
             (unprotected baseline_entries) eq_refl Hall Hp Habsent).
Defined.

End ResetCases.

(** ** Sequencing *)

Lemma bind_Return {A B} (m : Py A) (f : A → Py B) os a os' :
  m os = (Return a, os') → (m ≫= f) os = f a os'.
Proof. intros Hm. unfold mbind, Py_bind. by rewrite Hm. Qed.

Lemma bind_Raise {A B} (m : Py A) (f : A → Py B) os e os' :
  m os = (Raise e, os') → (m ≫= f) os = (Raise e, os').
Proof. intros Hm. unfold mbind, Py_bind. by rewrite Hm. Qed.

(** One step of a sequence: the first computation returns, as [tac]
    shows. *)
Tactic Notation "run" tactic3(tac) := erewrite bind_Return; [|tac].

Lemma for_in_singleton {A} (target : string) (body : string → Py A) os a os' :
  body target os = (Return a, os') →
  for_in (PyList [target]) body os = (Return (PyList [target]), os').
Proof.
  intros Hbody. unfold for_in, for_each.
  unfold mbind, Py_bind. by rewrite Hbody.
Qed.


(** ** The canonical order keeps the entries *)

Lemma _ReorderACL_Permutation dacl : _ReorderACL dacl ≡ₚ dacl.
Proof.
  unfold _ReorderACL.
  rewrite <- (filter_app_complement is_denied dacl) at 3.
  f_equiv. apply reflexive_eq, list_filter_iff.
  intros [[] ? ? ?]; unfold is_allowed, is_denied; simpl; split; congruence.
Qed.

Lemma AddAccessAllowedAceEx_Permutation dacl flags mask sid :
  AddAccessAllowedAceEx dacl flags mask sid
  ≡ₚ dacl ++ [mkACE ACCESS_ALLOWED_ACE_TYPE flags mask sid].
Proof. apply _ReorderACL_Permutation. Qed.

Lemma AddAccessDeniedAceEx_Permutation dacl flags mask sid :
  AddAccessDeniedAceEx dacl flags mask sid
  ≡ₚ dacl ++ [mkACE ACCESS_DENIED_ACE_TYPE flags mask sid].
Proof. apply _ReorderACL_Permutation. Qed.

Lemma granted_Permutation dacl level principal :
  granted dacl level principal ≡ₚ dacl ++ level_entries principal level.
Proof.
  unfold granted.
  destruct (decide (level = MODIFY_PROTECTED)) as [->|];
    [|destruct (decide (level = FULL_DENY)) as [->|]].
  - rewrite AddAccessDeniedAceEx_Permutation, AddAccessAllowedAceEx_Permutation.
    by rewrite <- app_assoc.
  - by rewrite AddAccessDeniedAceEx_Permutation.
  - rewrite AddAccessAllowedAceEx_Permutation. by destruct level.
Qed.

Lemma entries_of_level_entries principal level :
  entries_of principal (level_entries principal level)
  = level_entries principal level.
Proof.
  unfold entries_of.
  destruct level; simpl; repeat (rewrite filter_cons_True by done); done.
Qed.

Lemma entries_of_granted dacl level principal :
  entries_of principal dacl = [] →
  entries_of principal (granted dacl level principal)
  ≡ₚ level_entries principal level.
Proof.
  intros Hnone. unfold entries_of in *.
  rewrite granted_Permutation, filter_app, Hnone. simpl.
  apply reflexive_eq, entries_of_level_entries.
Qed.

Lemma level_entries_length principal level :
  length (level_entries principal level)
  = if decide (level = MODIFY_PROTECTED) then 2%nat else 1%nat.
Proof. by destruct level. Qed.

(** ** [give_permission] on the directory alone *)

Section GivePermission.

Context (host : Host).

Lemma check_permissions_Return level :
  level ≠ DELETE → check_permissions (PyEnum level) = Return level.
Proof.
  intros Hlevel. unfold check_permissions. simpl.
  by rewrite bool_decide_eq_false_2.
Qed.

Lemma check_permissions_Raise permissions :
  (∀ level, permissions = PyEnum level → level = DELETE) →
  check_permissions permissions = Raise NotAValidPermission.
Proof.
  intros Hbad. destruct permissions as [| | |level]; try done.
  by rewrite (Hbad level).
Qed.

(** Without recursion, on a readable descriptor the strip of which
    returns, the call strips, then dispatches on the level, all on the path
    of the directory. *)
Lemma give_permission_alone self name sid level os sd dacl :
  account_names host !! name = Some sid →
  security os !! path self = Some sd →
  strip_list host sid (Dacl sd) = Return dacl →
  level ≠ DELETE →
  ∃ os',
    give_permission host self name (PyEnum level) false os = (Return tt, os')
    ∧ security os'
      = <[path self := {| Dacl := granted dacl level sid; dacl_protected := false |}]>
          (security os)
    ∧ volume os' = volume os.
Proof.
  intros Hname Hsd Hstrip Hlevel. unfold give_permission.
  run (by unfold lift; rewrite check_permissions_Return).
  run (reflexivity).
  run (by unfold _get_user_or_group_pysid, lift, LookupAccountName; rewrite Hname).
  run (by eapply for_in_singleton, (reset_user_permissions_Return _ _ _ _ sd dacl)).
  set (sd1 := SetSecurityDescriptorDacl sd dacl).
  set (os1 := after_SetFileSecurity (path self) sd1 os).
  assert (Hsd1 : security os1 !! path self = Some sd1) by apply lookup_insert_eq.
  unfold granted.
  destruct (decide (level = MODIFY_PROTECTED));
    [|destruct (decide (level = FULL_DENY))].
  - run (by eapply for_in_singleton, (_grant_permission_Return _ _ _ _ _ _ sd1)).
    run (apply _deny_permission_Return, lookup_insert_eq).
    eexists. split_and!; [reflexivity| |done].
    simpl. by rewrite !insert_insert_eq.
  - run (by eapply for_in_singleton, (_deny_permission_Return _ _ _ _ _ _ sd1)).
    eexists. split_and!; [reflexivity| |done].
    simpl. by rewrite !insert_insert_eq.
  - run (by eapply for_in_singleton, (_grant_permission_Return _ _ _ _ _ _ sd1)).
    eexists. split_and!; [reflexivity| |done].
    simpl. by rewrite !insert_insert_eq.
Qed.

(** C2, as the code has it. On a readable descriptor whose entries all
    resolve, as the principal does, two calls in a row for the same
    principal, with levels [L1] then [L2] that are not [DELETE], both
    return, and the entries of the principal on the target are then the
    entries of [L2] alone: one entry, or the two of [MODIFY_PROTECTED]. *)
Theorem give_permission_twice (self : Directory) (name : string) (sid : PySID)
    (L1 L2 : Permissions) (os : OS) (sd : SECURITY_DESCRIPTOR) :
  account_names host !! name = Some sid →
  security os !! path self = Some sd →
  Forall (λ ace, resolvable host (ace_sid ace)) (Dacl sd) →
  resolvable host sid →
  L1 ≠ DELETE →
  L2 ≠ DELETE →
  ∃ os1 os2 sd2,
    give_permission host self name (PyEnum L1) false os = (Return tt, os1)
    ∧ give_permission host self name (PyEnum L2) false os1 = (Return tt, os2)
    ∧ security os2 !! path self = Some sd2
    ∧ entries_of sid (Dacl sd2) ≡ₚ level_entries sid L2
    ∧ length (entries_of sid (Dacl sd2))
      = (if decide (L2 = MODIFY_PROTECTED) then 2 else 1)%nat.
Proof.
  intros Hname Hsd Hall Hsid HL1 HL2.
  destruct (give_permission_alone self name sid L1 os sd
              (stripped host sid (Dacl sd)))
    as (os1 & Hfirst & Hsec1 & _); [done|done|by apply strip_list_resolved|done|].
  set (sd1 := {| Dacl := granted (stripped host sid (Dacl sd)) L1 sid;
                 dacl_protected := false |}) in *.
  assert (Hall1 : Forall (λ ace, resolvable host (ace_sid ace)) (Dacl sd1)).
  { simpl. rewrite granted_Permutation. apply Forall_app. split.
    - unfold stripped. rewrite Forall_forall in *. intros ace Hin.
      apply list_elem_of_filter in Hin. destruct Hin as [_ Hin]. auto.
    - destruct L1; simpl; repeat constructor; done. }
  destruct (give_permission_alone self name sid L2 os1 sd1
              (stripped host sid (Dacl sd1)))
    as (os2 & Hsecond & Hsec2 & _);
    [done|by rewrite Hsec1, lookup_insert_eq|by apply strip_list_resolved|done|].
  eexists os1, os2, _. split_and!; [done|done|by rewrite Hsec2, lookup_insert_eq|..].
  - cbn [Dacl]. apply entries_of_granted, entries_of_stripped.
  - cbn [Dacl].
    rewrite (entries_of_granted _ _ _ (entries_of_stripped host sid (Dacl sd1))).
    apply level_entries_length.
Qed.

(** C3. Without recursion and with [MODIFY_PROTECTED], on a readable
    descriptor whose entries all resolve, as the principal does, the call
    returns after the strip, one grant of [MODIFY] with [inherits] and
    [propagation] set, and one deny of [DELETE] with [inherits] set and
    [propagation] unset, in this order and all on the path of the
    directory; the descriptor then holds for the principal one Allow
    entry with the mask of [MODIFY] and one Deny entry with the mask of
    [DELETE] that carries no inheritance flag. *)
Theorem give_permission_modify_protected (self : Directory) (name : string)
    (sid : PySID) (os : OS) (sd : SECURITY_DESCRIPTOR) :
  account_names host !! name = Some sid →
  security os !! path self = Some sd →
  Forall (λ ace, resolvable host (ace_sid ace)) (Dacl sd) →
  resolvable host sid →
  let target := path self in
  let dacl1 := stripped host sid (Dacl sd) in
  let dacl2 := AddAccessAllowedAceEx dacl1 (_set_flags true true).2 (value MODIFY) sid in
  let dacl3 := AddAccessDeniedAceEx dacl2 (_set_flags true false).2 (value DELETE) sid in
  ∃ os',
    give_permission host self name (PyEnum MODIFY_PROTECTED) false os
    = (Return tt, os')
    ∧ (reset_user_permissions host target sid;;
       _grant_permission sid target MODIFY true true;;
       _deny_permission sid target DELETE true false;;
       mret tt) os = (Return tt, os')
    ∧ calls os'
      = calls os
        ++ [CallGetFileSecurity target;
            CallSetFileSecurity target
              {| Dacl := dacl1; dacl_protected := dacl_protected sd |};
            CallGetNamedSecurityInfo target;
            CallSetNamedSecurityInfo target (_set_flags true true).1 dacl2;
            CallGetNamedSecurityInfo target;
            CallSetNamedSecurityInfo target (_set_flags true false).1 dacl3]
    ∧ security os'
      = <[target := {| Dacl := dacl3; dacl_protected := false |}]> (security os)
    ∧ entries_of sid dacl3
      ≡ₚ [mkACE ACCESS_ALLOWED_ACE_TYPE
            (Z.lor win32security.CONTAINER_INHERIT_ACE
                   win32security.OBJECT_INHERIT_ACE) (value MODIFY) sid;
          mkACE ACCESS_DENIED_ACE_TYPE win32security.NO_INHERITANCE
            (value DELETE) sid].
Proof.
  intros Hname Hsd Hall Hsid target dacl1 dacl2 dacl3.
  pose proof (strip_list_resolved host sid (Dacl sd) Hall Hsid) as Hstrip.
  set (sd1 := SetSecurityDescriptorDacl sd dacl1).
  set (os1 := after_SetFileSecurity target sd1 os).
  set (os2 := after_SetNamedSecurityInfo target true true dacl2 os1).
  set (os3 := after_SetNamedSecurityInfo target true false dacl3 os2).
  assert (Hstep1 : reset_user_permissions host target sid os = (Return sd1, os1))
    by by apply reset_user_permissions_Return.
  assert (Hstep2 : _grant_permission sid target MODIFY true true os1
                   = (Return (SetSecurityDescriptorDacl sd1 dacl2), os2))
    by apply _grant_permission_Return, lookup_insert_eq.
  assert (Hstep3 : _deny_permission sid target DELETE true false os2
                   = (Return (SetSecurityDescriptorDacl
                                {| Dacl := dacl2; dacl_protected := false |} dacl3),
                      os3))
    by apply _deny_permission_Return, lookup_insert_eq.
  exists os3. split_and!.
  - unfold give_permission.
    run (reflexivity).
    run (reflexivity).
    run (by unfold _get_user_or_group_pysid, lift, LookupAccountName; rewrite Hname).
    run (by eapply for_in_singleton).
    rewrite decide_True by done.
    run (by eapply for_in_singleton).
    by erewrite bind_Return.
  - run (done).
    run (done).
    by erewrite bind_Return.
  - simpl. by rewrite <- !app_assoc.
  - simpl. by rewrite !insert_insert_eq.
  - pose proof (entries_of_granted dacl1 MODIFY_PROTECTED sid
                  (entries_of_stripped host sid (Dacl sd))) as Hentries.
    by unfold granted in Hentries; rewrite decide_True in Hentries.
Qed.

(** C4, as the code has it. [give_permission] with [DELETE], with [None]
    or with any object that is not a member of [Permissions] raises
    [NotAValidPermission] and leaves the machine as it was: no descriptor
    is read, none is written.  [_grant_permission] does not validate: with
    [DELETE], on a readable descriptor, it returns and adds an Allow entry
    with the mask of [DELETE]. *)
Theorem delete_request (self : Directory) (name : string) (permissions : PyObject)
    (recursive : bool) (sid : PySID) (target : string) (inherits propagation : bool)
    (os : OS) (sd : SECURITY_DESCRIPTOR) :
  (∀ level, permissions = PyEnum level → level = DELETE) →
  security os !! target = Some sd →
  let dacl := AddAccessAllowedAceEx (Dacl sd) (_set_flags inherits propagation).2
                (value DELETE) sid in
  give_permission host self name permissions recursive os
  = (Raise NotAValidPermission, os)
  ∧ _grant_permission sid target DELETE inherits propagation os
    = (Return (SetSecurityDescriptorDacl sd dacl),
       after_SetNamedSecurityInfo target inherits propagation dacl os)
  ∧ security (after_SetNamedSecurityInfo target inherits propagation dacl os) !! target
    = Some {| Dacl := dacl; dacl_protected := negb inherits |}
  ∧ mkACE ACCESS_ALLOWED_ACE_TYPE (_set_flags inherits propagation).2
      (value DELETE) sid ∈ dacl.
Proof.
  intros Hbad Hsd dacl. split_and!.
  - unfold give_permission.
    erewrite bind_Raise; [done|].
    by unfold lift; rewrite check_permissions_Raise.
  - by apply _grant_permission_Return.
  - apply lookup_insert_eq.
  - subst dacl. rewrite AddAccessAllowedAceEx_Permutation. set_solver.
Qed.

End GivePermission.

(** ** [give_permission] with recursion *)


Lemma bind_mret {A B C} (m : Py A) (x : B) (f : B → Py C) os :
  ((m;; mret x) ≫= f) os = (m;; f x) os.
Proof.
  unfold mbind, Py_bind, mret, Py_ret.
  by destruct (m os) as [[a|e] os'].
Qed.

Lemma for_in_generator {A} (items : list string) (body : string → Py A) :
  for_in (PyGenerator items) body = (for_each items body;; mret (PyGenerator [])).
Proof. reflexivity. Qed.

Section Recursion.

Context (host : Host).


End Recursion.

(** ** [give_permission] on the school share *)

Section GivePermissionCases.

Import Scenario.

Lemma give_permission_twice_witness :
  account_names host !! "students" = Some students
  ∧ security os0 !! path a = Some (unprotected baseline_entries)
  ∧ Forall (λ ace, resolvable host (ace_sid ace)) baseline_entries
  ∧ resolvable host students
  ∧ READ ≠ DELETE
  ∧ MODIFY ≠ DELETE
  ∧ ∃ os1 os2 sd2,
      give_permission host a "students" (PyEnum READ) false os0 = (Return tt, os1)
      ∧ give_permission host a "students" (PyEnum MODIFY) false os1 = (Return tt, os2)
      ∧ security os2 !! path a = Some sd2
      ∧ entries_of students (Dacl sd2) ≡ₚ level_entries students MODIFY
      ∧ length (entries_of students (Dacl sd2)) = 1%nat.
Proof.
  assert (Hall : Forall (λ ace, resolvable host (ace_sid ace)) baseline_entries)
    by compute_done.
  assert (Hsid : resolvable host students) by compute_done.
  split_and!; [reflexivity|reflexivity|done|done|discriminate|discriminate|].
  apply (give_permission_twice host a "students" students READ MODIFY os0
           (unprotected baseline_entries));
    [reflexivity|reflexivity|done|done|discriminate|discriminate].
Defined.

(** More than one entry can remain: after [READ] then [MODIFY_PROTECTED]
    for the students on [C:\a], the descriptor holds two entries for
    them. *)
Lemma give_permission_twice_two_entries :
  let first := give_permission host a "students" (PyEnum READ) false os0 in
  let second :=
    give_permission host a "students" (PyEnum MODIFY_PROTECTED) false first.2 in
  first.1 = Return tt
  ∧ second.1 = Return tt
  ∧ ∃ sd2,
      security second.2 !! "C:\a" = Some sd2
      ∧ entries_of students (Dacl sd2)
        = [mkACE ACCESS_DENIED_ACE_TYPE 0 (value DELETE) students;
           mkACE ACCESS_ALLOWED_ACE_TYPE 3 (value MODIFY) students]
      ∧ length (entries_of students (Dacl sd2)) ≠ 1%nat.
Proof.
  split_and!; [compute_done..|].
  eexists. split_and!; [vm_compute; reflexivity|compute_done..].
Qed.

Lemma give_permission_modify_protected_witness :
  account_names host !! "students" = Some students
  ∧ security os0 !! path a = Some (unprotected baseline_entries)
  ∧ Forall (λ ace, resolvable host (ace_sid ace)) baseline_entries
  ∧ resolvable host students
  ∧ ∃ os',
      give_permission host a "students" (PyEnum MODIFY_PROTECTED) false os0
      = (Return tt, os')
      ∧ security os' !! "C:\a"
        = Some (unprotected
                  [mkACE ACCESS_DENIED_ACE_TYPE 0 (value DELETE) students;
                   allow con.FILE_ALL_ACCESS WellKnownSIDs.NT_AUTHORITY;
                   allow con.FILE_ALL_ACCESS WellKnownSIDs.ADMINS;
                   allow (value MODIFY) students]).
Proof.
  assert (Hall : Forall (λ ace, resolvable host (ace_sid ace)) baseline_entries)
    by compute_done.
  assert (Hsid : resolvable host students) by compute_done.
  split_and!; [reflexivity|reflexivity|done|done|].
  destruct (give_permission_modify_protected host a "students" students os0
              (unprotected baseline_entries) eq_refl eq_refl Hall Hsid)
    as (os' & Hcall & _ & _ & Hsecurity & _).
  exists os'. split; [done|].
  rewrite Hsecurity. compute_done.
Defined.

Lemma delete_request_witness :
  (∀ level, PyNone = PyEnum level → level = DELETE)
  ∧ security os0 !! "C:\a" = Some (unprotected baseline_entries)
  ∧ give_permission host a "students" PyNone true os0
    = (Raise NotAValidPermission, os0)
  ∧ allow (value DELETE) students
    ∈ AddAccessAllowedAceEx baseline_entries 3 (value DELETE) students.
Proof.
  assert (Hbad : ∀ level, PyNone = PyEnum level → level = DELETE)
    by (intros level; discriminate).
  split_and!; [done|reflexivity|..];
    apply (delete_request host a "students" PyNone true students "C:\a" true true
             os0 (unprotected baseline_entries) Hbad eq_refl).
Defined.

(** [_grant_permission] takes [DELETE]: asked for it on [C:\a], it
    raises nothing and writes a descriptor with an Allow entry for the mask
    of [DELETE]. *)
Lemma grant_accepts_delete :
  let result := _grant_permission students "C:\a" DELETE true true os0 in
  result.1 ≠ Raise NotAValidPermission
  ∧ result.1
    = Return (unprotected (baseline_entries ++ [allow (value DELETE) students]))
  ∧ security result.2 !! "C:\a" ≠ security os0 !! "C:\a"
  ∧ calls result.2
    = [CallGetNamedSecurityInfo "C:\a";
       CallSetNamedSecurityInfo "C:\a" 536870916
         (baseline_entries ++ [allow (value DELETE) students])].
Proof. split_and!; [by vm_compute|compute_done..]. Qed.

(** C1 on the code. The walk of [C:\a] has four paths, none of them
    [C:\a] itself.  The recursive call for the students with [READ]
    returns; what it did is read and write back the descriptors of those
    four paths, stripped, and nothing else: the loop that grants runs over
    the generator the strip has consumed.  No path carries an entry for
    the students afterwards. *)
Theorem give_permission_recursive_only_strips :
  let targets := ["C:\a\b"; "C:\a\1.txt"; "C:\a\2.txt"; "C:\a\b\3.txt"] in
  let result := give_permission host a "students" (PyEnum READ) true os0 in
  (list_subdirectories_recurs host a os0).1 = Return (PyGenerator targets)
  ∧ (path a ∉ targets)
  ∧ result.1 = Return tt
  ∧ calls result.2
    = flat_map (λ target, [CallGetFileSecurity target;
                           CallSetFileSecurity target (unprotected baseline_entries)])
        targets
  ∧ map (λ target, security result.2 !! target) (path a :: targets)
    = replicate 5 (Some (unprotected baseline_entries))
  ∧ entries_of students baseline_entries = [].
Proof. split_and!; compute_done. Qed.

End GivePermissionCases.

(** ** The [path] property and the constructor *)

Section Construction.

Context (host : Host).

(** What comes back from a computation that ends in [mret x] is [x]. *)
Lemma then_mret_Return {A B} (m : Py A) (x y : B) os os' :
  (m;; mret x) os = (Return y, os') → y = x.
Proof.
  unfold mbind, Py_bind, mret, Py_ret.
  destruct (m os) as [[?|?] ?]; congruence.
Qed.

Lemma __init___Return path_to_dir reset_perms os self os' :
  __init__ host path_to_dir reset_perms os = (Return self, os') →
  ∃ s, path_to_dir = PyStr s ∧ path self = abspath host s.
Proof.
  unfold __init__. intros Hinit.
  destruct path_to_dir as [| s | s | level]; try done.
  exists s. split; [done|].
  erewrite bind_Return in Hinit; [|reflexivity].
  erewrite bind_Return in Hinit; [|reflexivity].
  erewrite bind_Return in Hinit; [|reflexivity].
  revert Hinit. unfold mbind at 1, Py_bind at 1.
  destruct (_ os) as [[[]|?] os1]; [|done].
  intros Hinit. apply then_mret_Return in Hinit. by subst self.
Qed.

(** C10. The setter raises [NotAValidPath] exactly when the value is not
    a string, and stores every string; when it raises, the instance keeps
    the path it had; and an instance that [__init__] returns holds the
    string [abspath] made of the string it was given. *)
Theorem path_setter_spec (self : Directory) (new_path : PyObject) :
  ((path_setter self new_path).1 = Raise NotAValidPath
   ↔ isinstance_str new_path = false)
  ∧ ((path_setter self new_path).1 = Return tt ↔ isinstance_str new_path = true)
  ∧ (∀ s, path_setter self (PyStr s) = (Return tt, {| _path := s |}))
  ∧ (∀ e, (path_setter self new_path).1 = Raise e →
          path (path_setter self new_path).2 = path self)
  ∧ (∀ path_to_dir reset_perms os new os',
       __init__ host path_to_dir reset_perms os = (Return new, os') →
       ∃ s, path_to_dir = PyStr s ∧ path new = abspath host s).
Proof.
  split_and!.
  - destruct new_path; simpl; split; congruence.
  - destruct new_path; simpl; split; congruence.
  - done.
  - intros e. by destruct new_path.
  - apply __init___Return.
Qed.

End Construction.

(** ** Creating a folder *)

Lemma entry_name_Some host top path name :
  entry_name host top path = Some name →
  path ≠ "" ∧ place host (os_path_join top name) = place host path.
Proof.
  unfold entry_name. intros Hname. case_match eqn:Hcheck; [|done].
  injection Hname as <-.
  apply andb_prop in Hcheck as [Hcheck Hplace].
  apply andb_prop in Hcheck as [Hpath _].
  apply negb_true_iff, bool_decide_eq_false in Hpath.
  by apply bool_decide_eq_true in Hplace.
Qed.

Lemma update_first_Some {A} (f : A → option A) items items' :
  update_first f items = Some items' →
  ∃ before item item' after,
    items = before ++ item :: after
    ∧ items' = before ++ item' :: after
    ∧ f item = Some item'.
Proof.
  revert items'. induction items as [|item items IH]; intros items'; [done|].
  simpl. destruct (f item) as [item'|] eqn:Hitem.
  - intros [= <-]. by exists [], item, item', items.
  - destruct (update_first f items) as [rest|]; [|done].
    intros [= <-].
    destruct (IH rest eq_refl) as (before & x & x' & after & -> & -> & Hx).
    by exists (item :: before), x, x', after.
Qed.

Lemma mkdir_in_folder_name host top t path t' :
  mkdir_in host top t path = Some t' → folder_name t' = folder_name t.
Proof.
  destruct t as [name dirs files]. simpl.
  destruct (entry_name host top path); [by intros [= <-]|].
  destruct (update_first _ dirs); [|done]. by intros [= <-].
Qed.

Lemma elem_of_flat_map {A B} (f : A → list B) (l : list A) (y : B) :
  y ∈ flat_map f l ↔ ∃ x, x ∈ l ∧ y ∈ f x.
Proof.
  rewrite list_elem_of_In, in_flat_map.
  by setoid_rewrite list_elem_of_In.
Qed.

(** The new folder is a folder of the new tree, at the place the path
    names. *)
Lemma mkdir_in_folders host t : ∀ top path t',
  mkdir_in host top t path = Some t' →
  path ≠ ""
  ∧ ∃ new, new ∈ (folders top t').*1 ∧ place host new = place host path.
Proof.
  induction t as [name dirs files IH] using Tree_nested_ind.
  intros top path t'. simpl.
  destruct (entry_name host top path) as [new|] eqn:Hnew.
  - intros [= <-]. apply entry_name_Some in Hnew as [Hpath Hnew].
    split; [done|]. exists (os_path_join top new). split; [|done]. simpl.
    rewrite flat_map_app, fmap_app. simpl. set_solver.
  - destruct (update_first _ dirs) as [dirs'|] eqn:Hdirs; [|done].
    intros [= <-].
    apply update_first_Some in Hdirs
      as (before & d & d' & after & -> & -> & Hd).
    apply Forall_app in IH as [_ IH]. apply Forall_cons in IH as [IH _].
    destruct (IH _ _ _ Hd) as (Hpath & new & Hin & Hplace).
    apply mkdir_in_folder_name in Hd. split; [done|].
    exists new. split; [|done]. simpl.
    rewrite flat_map_app, fmap_app. simpl. rewrite fmap_app, Hd.
    rewrite elem_of_cons, !elem_of_app. auto.
Qed.

Lemma folders_all_paths vol entry :
  entry ∈ folders (folder_name vol) vol → entry.1 ∈ all_paths vol.
Proof. intros Hin. apply elem_of_flat_map. exists entry. set_solver. Qed.

(** A folder of the volume exists, under every spelling of its path. *)
Lemma folder_exists_at host vol path folder :
  path ≠ "" →
  folder ∈ (folders (folder_name vol) vol).*1 →
  place host folder = place host path →
  exists_at host vol path.
Proof.
  intros Hpath Hin Hplace. split; [done|]. rewrite <- Hplace.
  apply list_elem_of_fmap_2. destruct (ends_with_sep path); [done|].
  apply list_elem_of_fmap in Hin as (entry & -> & Hentry).
  by apply folders_all_paths.
Qed.

Lemma mkdir_in_exists_at host vol path vol' :
  mkdir_in host (folder_name vol) vol path = Some vol' → exists_at host vol' path.
Proof.
  intros Hmkdir.
  pose proof (mkdir_in_folder_name _ _ _ _ _ Hmkdir) as Hname.
  apply mkdir_in_folders in Hmkdir as (Hpath & new & Hin & Hplace).
  apply (folder_exists_at host vol' path new); [done| |done].
  by rewrite Hname.
Qed.

Lemma file_or_dir_exists_true host path os :
  exists_at host (volume os) path →
  file_or_dir_exists host path os = (Return true, os).
Proof. intros Hold. unfold file_or_dir_exists. by rewrite bool_decide_eq_true_2. Qed.

Lemma file_or_dir_exists_false host path os :
  ¬ exists_at host (volume os) path →
  file_or_dir_exists host path os = (Return false, os).
Proof. intros Hnew. unfold file_or_dir_exists. by rewrite bool_decide_eq_false_2. Qed.

Section Creation.

Context (host : Host).

(** C9, as the code has it. Constructing a [Directory] from a path acts
    on the machine.  When nothing is at the place the absolute path names
    and the folder that is to contain it exists, the constructor creates a
    folder there, which then exists; with [reset_perms] set it goes on to
    replace the entries of its descriptor by the two of a reset, and with
    [reset_perms] unset it touches no other descriptor.  When something is
    there already and its descriptor can be read, [reset_perms] set
    replaces its entries by the two of a reset, and [reset_perms] unset
    leaves the machine as it was. *)
Theorem init_creates_and_resets (s : string) (os : OS) :
  let target := abspath host s in
  let self := {| _path := target |} in
  (∀ vol',
     ¬ exists_at host (volume os) target →
     mkdir_in host (folder_name (volume os)) (volume os) target = Some vol' →
     let created := created_sd host (security os) target in
     let os1 := {| volume := vol';
                   security := <[target := created]> (security os);
                   calls := calls os |} in
     let reset := {| Dacl := baseline_entries;
                     dacl_protected := dacl_protected created |} in
     exists_at host vol' target
     ∧ __init__ host (PyStr s) false os = (Return self, os1)
     ∧ (∀ other, other ≠ target → security os1 !! other = security os !! other)
     ∧ __init__ host (PyStr s) true os
       = (Return self, after_SetFileSecurity target reset os1)
     ∧ security (after_SetFileSecurity target reset os1) !! target = Some reset)
  ∧ (∀ sd,
       exists_at host (volume os) target →
       security os !! target = Some sd →
       let reset := {| Dacl := baseline_entries;
                       dacl_protected := dacl_protected sd |} in
       __init__ host (PyStr s) false os = (Return self, os)
       ∧ __init__ host (PyStr s) true os
         = (Return self, after_SetFileSecurity target reset os)
       ∧ volume (after_SetFileSecurity target reset os) = volume os
       ∧ security (after_SetFileSecurity target reset os) !! target = Some reset).
Proof.
  intros target self. split.
  - intros vol' Hnew Hmkdir created os1 reset.
    assert (Hcreate : create_dir host target os = (Return tt, os1)).
    { unfold create_dir. rewrite bool_decide_eq_false_2 by done.
      by rewrite Hmkdir. }
    assert (Hexists : file_or_dir_exists host target os = (Return false, os))
      by by apply file_or_dir_exists_false.
    split_and!.
    + by apply mkdir_in_exists_at with (volume os).
    + unfold __init__.
      run (reflexivity).
      run (reflexivity).
      run (exact Hexists).
      by erewrite bind_Return.
    + intros other Hother. simpl. by rewrite lookup_insert_ne.
    + unfold __init__.
      run (reflexivity).
      run (reflexivity).
      run (exact Hexists).
      run (exact Hcreate).
      erewrite bind_Return; [done|].
      apply (reset_permissions_alone host self os1 created), lookup_insert_eq.
    + apply lookup_insert_eq.
  - intros sd Hold Hsd reset.
    assert (Hexists : file_or_dir_exists host target os = (Return true, os))
      by by apply file_or_dir_exists_true.
    split_and!.
    + unfold __init__.
      run (reflexivity).
      run (reflexivity).
      run (exact Hexists).
      by erewrite bind_Return.
    + unfold __init__.
      run (reflexivity).
      run (reflexivity).
      run (exact Hexists).
      run (reflexivity).
      erewrite bind_Return; [done|].
      by apply (reset_permissions_alone host self os sd).
    + done.
    + apply lookup_insert_eq.
Qed.

End Creation.

(** ** The constructor on the school share *)

Section ConstructionCases.

Import Scenario.

Lemma init_creates_and_resets_witness :
  let vol' := Folder "C:\" [Folder "a" [Folder "b" [] ["3.txt"]; Folder "c" [] []]
                              ["1.txt"; "2.txt"]] [] in
  let os1 := {| volume := vol';
                security := <["C:\a\c" := unprotected []]> (security os0);
                calls := [] |} in
  ¬ exists_at host (volume os0) "C:\a\c"
  ∧ mkdir_in host (folder_name (volume os0)) (volume os0) "C:\a\c" = Some vol'
  ∧ exists_at host vol' "C:\a\c"
  ∧ __init__ host (PyStr "C:/a/c") true os0
    = (Return {| _path := "C:\a\c" |},
       after_SetFileSecurity "C:\a\c" (unprotected baseline_entries) os1)
  ∧ exists_at host (volume os0) "C:\a"
  ∧ security os0 !! "C:\a" = Some (unprotected baseline_entries)
  ∧ __init__ host (PyStr "C:\a") false os0 = (Return a, os0).
Proof.
  intros vol' os1.
  assert (Hnew : ¬ exists_at host (volume os0) "C:\a\c") by compute_done.
  assert (Hmkdir : mkdir_in host (folder_name (volume os0)) (volume os0) "C:\a\c"
                   = Some vol') by (vm_compute; reflexivity).
  assert (Hold : exists_at host (volume os0) "C:\a") by compute_done.
  assert (Hsd : security os0 !! "C:\a" = Some (unprotected baseline_entries))
    by reflexivity.
  assert (Hfull : abspath host "C:/a/c" = "C:\a\c") by (vm_compute; reflexivity).
  assert (Hsame : abspath host "C:\a" = "C:\a") by (vm_compute; reflexivity).
  pose proof (init_creates_and_resets host "C:/a/c" os0) as [Hcreate _].
  pose proof (init_creates_and_resets host "C:\a" os0) as [_ Hkeep].
  cbv zeta in Hcreate, Hkeep. rewrite Hfull in Hcreate. rewrite Hsame in Hkeep.
  destruct (Hcreate vol' Hnew Hmkdir) as (Hthere & _ & _ & Hreset & _).
  destruct (Hkeep _ Hold Hsd) as (Hsame' & _).
  split_and!; [done|done|exact Hthere|exact Hreset|done|done|exact Hsame'].
Defined.

(** Not for every path: nothing is at [C:\y\z], and nothing at [C:\y]
    either.  The constructor, which creates with [os.mkdir], raises
    [FileNotFoundError] there, with [reset_perms] set or unset; the machine
    is as it was, so that nothing is at [C:\y\z] afterwards, and no
    descriptor has been reset. *)
Lemma init_parent_missing :
  ¬ exists_at host (volume os0) "C:\y\z"
  ∧ ¬ exists_at host (volume os0) "C:\y"
  ∧ __init__ host (PyStr "C:\y\z") true os0
    = (Raise (FileNotFoundError "C:\y\z"), os0)
  ∧ __init__ host (PyStr "C:\y\z") false os0
    = (Raise (FileNotFoundError "C:\y\z"), os0).
Proof. split_and!; [compute_done..|by vm_compute|by vm_compute]. Qed.

Lemma path_setter_spec_witness :
  __init__ host (PyStr "C:\a") false os0 = (Return a, os0)
  ∧ ∃ s, PyStr "C:\a" = PyStr s ∧ path a = abspath host s.
Proof.
  assert (Hinit : __init__ host (PyStr "C:\a") false os0 = (Return a, os0))
    by reflexivity.
  split; [done|].
  apply (proj2 (proj2 (proj2 (proj2 (path_setter_spec host a PyNone))))
           (PyStr "C:\a") false os0 a os0 Hinit).
Defined.

End ConstructionCases.

(** * Further properties of [filesystem.py] *)

(** ** One call of [give_permission] on the directory alone *)

Lemma entries_of_none_filter principal dacl :
  entries_of principal dacl = [] →
  filter (λ ace, ace_sid ace ≠ principal) dacl = dacl.
Proof.
  unfold entries_of. induction dacl as [|ace dacl IH]; [done|].
  rewrite filter_cons. destruct (decide (ace_sid ace = principal)); [done|].
  intros Hnone. rewrite filter_cons_True by done. f_equal. by apply IH.
Qed.

Lemma filter_nil_filter {A} (P Q : A → Prop)
    `{∀ x, Decision (P x)} `{∀ x, Decision (Q x)} (l : list A) :
  filter P l = [] → filter P (filter Q l) = [].
Proof.
  induction l as [|x l IH]; [done|].
  rewrite (filter_cons P). destruct (decide (P x)); [done|]. intros Hnone.
  rewrite (filter_cons Q). destruct (decide (Q x)); [|by apply IH].
  rewrite filter_cons_False by done. by apply IH.
Qed.

Lemma level_entries_other principal level :
  filter (λ ace, ace_sid ace ≠ principal) (level_entries principal level) = [].
Proof.
  destruct level; simpl; repeat (rewrite filter_cons_False by (simpl; tauto)); done.
Qed.

Lemma stripped_resolvable host principal dacl :
  Forall (λ ace, resolvable host (ace_sid ace)) dacl →
  Forall (λ ace, resolvable host (ace_sid ace)) (stripped host principal dacl).
Proof.
  unfold stripped. rewrite !Forall_forall. intros Hall ace Hin.
  apply list_elem_of_filter in Hin. destruct Hin as [_ Hin]. auto.
Qed.

Lemma granted_resolvable host principal level dacl :
  Forall (λ ace, resolvable host (ace_sid ace)) dacl →
  resolvable host principal →
  Forall (λ ace, resolvable host (ace_sid ace)) (granted dacl level principal).
Proof.
  intros Hall Hp. rewrite granted_Permutation. apply Forall_app. split; [done|].
  destruct level; simpl; repeat constructor; done.
Qed.

Section SingleCall.

Context (host : Host).

(** X1. Without recursion, for any level but [DELETE], on a readable
    descriptor whose entries all resolve, as the principal does, the call
    returns and the principal then holds on the target exactly the entries
    of the level, whatever it held before; with [FULL_DENY] every entry of
    the principal is a Deny entry. *)
Theorem give_permission_entries (self : Directory) (name : string) (sid : PySID)
    (level : Permissions) (os : OS) (sd : SECURITY_DESCRIPTOR) :
  account_names host !! name = Some sid →
  security os !! path self = Some sd →
  Forall (λ ace, resolvable host (ace_sid ace)) (Dacl sd) →
  resolvable host sid →
  level ≠ DELETE →
  ∃ os' sd',
    give_permission host self name (PyEnum level) false os = (Return tt, os')
    ∧ security os' !! path self = Some sd'
    ∧ entries_of sid (Dacl sd') ≡ₚ level_entries sid level
    ∧ length (entries_of sid (Dacl sd'))
      = (if decide (level = MODIFY_PROTECTED) then 2 else 1)%nat
    ∧ (level = FULL_DENY →
       Forall (λ ace, ace_sid ace = sid → is_denied ace) (Dacl sd')).
Proof.
  intros Hname Hsd Hall Hsid Hlevel.
  destruct (give_permission_alone host self name sid level os sd
              (stripped host sid (Dacl sd)))
    as (os' & Hcall & Hsecurity & _);
    [done|done|by apply strip_list_resolved|done|].
  pose proof (entries_of_granted (stripped host sid (Dacl sd)) level sid
                (entries_of_stripped host sid (Dacl sd))) as Hentries.
  eexists os', _. split_and!; [done|by rewrite Hsecurity, lookup_insert_eq|..].
  - done.
  - cbn [Dacl]. rewrite Hentries. apply level_entries_length.
  - intros ->. cbn [Dacl]. rewrite Forall_forall. intros ace Hin Hace.
    assert (Hmine : ace ∈ entries_of sid
                            (granted (stripped host sid (Dacl sd)) FULL_DENY sid)).
    { unfold entries_of. by apply list_elem_of_filter. }
    rewrite Hentries in Hmine. simpl in Hmine.
    apply list_elem_of_singleton in Hmine. by subst ace.
Qed.

(** X2. The same call leaves alone what is not the principal's: on the
    target, the entries of the other accounts are all kept (and every entry
    of an SID that resolves to the account of the principal is gone); the
    descriptor of every other path and the directory tree are as before.
    The descriptor of the target is written unprotected. *)
Theorem give_permission_frame (self : Directory) (name : string) (sid : PySID)
    (level : Permissions) (os : OS) (sd : SECURITY_DESCRIPTOR) :
  account_names host !! name = Some sid →
  security os !! path self = Some sd →
  Forall (λ ace, resolvable host (ace_sid ace)) (Dacl sd) →
  resolvable host sid →
  level ≠ DELETE →
  ∃ os' sd',
    give_permission host self name (PyEnum level) false os = (Return tt, os')
    ∧ security os' !! path self = Some sd'
    ∧ filter (λ ace, ace_sid ace ≠ sid) (Dacl sd')
      ≡ₚ filter (λ ace, ¬ same_account host sid ace) (Dacl sd)
    ∧ dacl_protected sd' = false
    ∧ (∀ other, other ≠ path self → security os' !! other = security os !! other)
    ∧ volume os' = volume os.
Proof.
  intros Hname Hsd Hall Hsid Hlevel.
  destruct (give_permission_alone host self name sid level os sd
              (stripped host sid (Dacl sd)))
    as (os' & Hcall & Hsecurity & Hvolume);
    [done|done|by apply strip_list_resolved|done|].
  eexists os', _. split_and!; [done|by rewrite Hsecurity, lookup_insert_eq|..].
  - cbn [Dacl]. rewrite granted_Permutation, filter_app, level_entries_other.
    rewrite app_nil_r.
    by rewrite (entries_of_none_filter _ _ (entries_of_stripped host sid (Dacl sd))).
  - done.
  - intros other Hother. by rewrite Hsecurity, lookup_insert_ne.
  - done.
Qed.

(** X3. Calls for two principals that resolve to different accounts do
    not disturb each other: after a call for the first and a call for the
    second on the same directory, each holds exactly the entries of its own
    level. *)
Theorem give_permission_two_principals (self : Directory) (name1 name2 : string)
    (sid1 sid2 : PySID) (L1 L2 : Permissions) (os : OS) (sd : SECURITY_DESCRIPTOR) :
  account_names host !! name1 = Some sid1 →
  account_names host !! name2 = Some sid2 →
  security os !! path self = Some sd →
  Forall (λ ace, resolvable host (ace_sid ace)) (Dacl sd) →
  resolvable host sid1 →
  resolvable host sid2 →
  accounts host !! sid1 ≠ accounts host !! sid2 →
  L1 ≠ DELETE →
  L2 ≠ DELETE →
  ∃ os1 os2 sd2,
    give_permission host self name1 (PyEnum L1) false os = (Return tt, os1)
    ∧ give_permission host self name2 (PyEnum L2) false os1 = (Return tt, os2)
    ∧ security os2 !! path self = Some sd2
    ∧ entries_of sid1 (Dacl sd2) ≡ₚ level_entries sid1 L1
    ∧ entries_of sid2 (Dacl sd2) ≡ₚ level_entries sid2 L2.
Proof.
  intros Hname1 Hname2 Hsd Hall Hsid1 Hsid2 Hdiff HL1 HL2.
  assert (Hsids : sid1 ≠ sid2) by (intros ->; done).
  destruct (give_permission_alone host self name1 sid1 L1 os sd
              (stripped host sid1 (Dacl sd)))
    as (os1 & Hfirst & Hsec1 & _); [done|done|by apply strip_list_resolved|done|].
  set (dacl1 := granted (stripped host sid1 (Dacl sd)) L1 sid1) in *.
  assert (Hall1 : Forall (λ ace, resolvable host (ace_sid ace)) dacl1)
    by (apply granted_resolvable; [by apply stripped_resolvable|done]).
  destruct (give_permission_alone host self name2 sid2 L2 os1
              {| Dacl := dacl1; dacl_protected := false |}
              (stripped host sid2 dacl1))
    as (os2 & Hsecond & Hsec2 & _);
    [done|by rewrite Hsec1, lookup_insert_eq|by apply strip_list_resolved|done|].
  eexists os1, os2, _.
  split_and!; [done|done|by rewrite Hsec2, lookup_insert_eq|..]; cbn [Dacl].
  - unfold entries_of. rewrite granted_Permutation, filter_app.
    assert (Hnot2 : filter (λ ace, ace_sid ace = sid1) (level_entries sid2 L2) = []).
    { destruct L2; simpl; repeat (rewrite filter_cons_False by (simpl; congruence));
        done. }
    rewrite Hnot2, app_nil_r. unfold stripped, dacl1.
    rewrite granted_Permutation, !filter_app.
    fold (stripped host sid1 (Dacl sd)).
    assert (Hmine : filter (λ ace, ¬ same_account host sid2 ace)
                      (level_entries sid1 L1) = level_entries sid1 L1).
    { destruct L1; simpl;
        repeat (rewrite filter_cons_True by (unfold same_account; simpl; done));
        done. }
    rewrite Hmine. fold (entries_of sid1 (level_entries sid1 L1)).
    rewrite entries_of_level_entries.
    by rewrite (filter_nil_filter _ _ _ (entries_of_stripped host sid1 (Dacl sd))).
  - apply entries_of_granted, entries_of_stripped.
Qed.

End SingleCall.

(** ** [give_permission] after a reset *)

Lemma stripped_app host principal dacl1 dacl2 :
  stripped host principal (dacl1 ++ dacl2)
  = stripped host principal dacl1 ++ stripped host principal dacl2.
Proof. apply filter_app. Qed.

Section AfterReset.

Context (host : Host).

(** X4. What [initialize.py] does with every shared directory: a reset
    (the one the constructor makes) and then a call for a group.  When the
    group is neither of the two authorities of the reset, the descriptor
    ends up with the two entries of the reset and the entries of the
    level, and nothing else. *)
Theorem reset_then_give_permission (self : Directory) (name : string)
    (sid : PySID) (level : Permissions) (os : OS) (sd : SECURITY_DESCRIPTOR) :
  account_names host !! name = Some sid →
  security os !! path self = Some sd →
  resolvable host WellKnownSIDs.NT_AUTHORITY →
  resolvable host WellKnownSIDs.ADMINS →
  resolvable host sid →
  accounts host !! WellKnownSIDs.NT_AUTHORITY ≠ accounts host !! sid →
  accounts host !! WellKnownSIDs.ADMINS ≠ accounts host !! sid →
  level ≠ DELETE →
  ∃ os1 os2 sd2,
    reset_permissions host self false os = (Return tt, os1)
    ∧ give_permission host self name (PyEnum level) false os1 = (Return tt, os2)
    ∧ security os2 !! path self = Some sd2
    ∧ Dacl sd2 ≡ₚ baseline_entries ++ level_entries sid level.
Proof.
  intros Hname Hsd Hsystem Hadmins Hsid Hne1 Hne2 Hlevel.
  set (sd1 := {| Dacl := baseline_entries; dacl_protected := dacl_protected sd |}).
  set (os1 := after_SetFileSecurity (path self) sd1 os).
  assert (Hall : Forall (λ ace, resolvable host (ace_sid ace)) (Dacl sd1))
    by (repeat constructor; done).
  destruct (give_permission_alone host self name sid level os1 sd1
              (stripped host sid (Dacl sd1)))
    as (os2 & Hcall & Hsecurity & _);
    [done|apply lookup_insert_eq|by apply strip_list_resolved|done|].
  exists os1, os2. eexists.
  split_and!; [by apply reset_permissions_alone|done|
               by rewrite Hsecurity, lookup_insert_eq|].
  cbn [Dacl]. rewrite granted_Permutation. f_equiv. apply reflexive_eq.
  apply stripped_absent. repeat constructor; done.
Qed.

(** X5. When the group is the administrators, the second authority of
    the reset, the strip takes away the full-control entry the reset gave
    them: the descriptor ends up with the entry of the system authority
    and, for the administrators, the entries of the level alone. *)
Theorem reset_then_give_permission_to_admins (self : Directory) (name : string)
    (level : Permissions) (os : OS) (sd : SECURITY_DESCRIPTOR) :
  account_names host !! name = Some WellKnownSIDs.ADMINS →
  security os !! path self = Some sd →
  resolvable host WellKnownSIDs.NT_AUTHORITY →
  resolvable host WellKnownSIDs.ADMINS →
  accounts host !! WellKnownSIDs.NT_AUTHORITY
  ≠ accounts host !! WellKnownSIDs.ADMINS →
  level ≠ DELETE →
  ∃ os1 os2 sd2,
    reset_permissions host self false os = (Return tt, os1)
    ∧ give_permission host self name (PyEnum level) false os1 = (Return tt, os2)
    ∧ security os2 !! path self = Some sd2
    ∧ Dacl sd2
      ≡ₚ mkACE ACCESS_ALLOWED_ACE_TYPE (_set_flags false true).2
           con.FILE_ALL_ACCESS WellKnownSIDs.NT_AUTHORITY
         :: level_entries WellKnownSIDs.ADMINS level.
Proof.
  intros Hname Hsd Hsystem Hadmins Hne Hlevel.
  set (sd1 := {| Dacl := baseline_entries; dacl_protected := dacl_protected sd |}).
  set (os1 := after_SetFileSecurity (path self) sd1 os).
  assert (Hall : Forall (λ ace, resolvable host (ace_sid ace)) (Dacl sd1))
    by (repeat constructor; done).
  destruct (give_permission_alone host self name WellKnownSIDs.ADMINS level os1 sd1
              (stripped host WellKnownSIDs.ADMINS (Dacl sd1)))
    as (os2 & Hcall & Hsecurity & _);
    [done|apply lookup_insert_eq|by apply strip_list_resolved|done|].
  exists os1, os2. eexists.
  split_and!; [by apply reset_permissions_alone|done|
               by rewrite Hsecurity, lookup_insert_eq|].
  cbn [Dacl]. rewrite granted_Permutation. apply reflexive_eq.
  unfold stripped. subst sd1. cbn [Dacl]. unfold baseline_entries. cbv zeta.
  rewrite filter_cons_True by done.
  rewrite filter_cons_False by (unfold same_account; simpl; tauto).
  done.
Qed.

End AfterReset.

(** ** Failures of [give_permission] and of what it calls *)

Section Failures.

Context (host : Host).

Lemma strip_list_unresolvable principal dacl :
  Exists (λ ace, ¬ resolvable host (ace_sid ace)) dacl →
  strip_list host principal dacl = Raise (pywintypes_error "LookupAccountSid").
Proof.
  induction 1 as [ace dacl Hace|ace dacl _ IH]; simpl; unfold LookupAccountSid.
  - destruct (accounts host !! ace_sid ace) as [account|] eqn:Hlookup; [|done].
    destruct Hace. by exists account.
  - destruct (accounts host !! ace_sid ace); [|done].
    destruct (accounts host !! principal); [|done]. simpl.
    fold (LookupAccountSid host). rewrite IH. by case_decide.
Qed.

(** X6. A group name the system does not know stops the call before any
    descriptor is read or written, with the error of the name lookup and
    with the machine as it was, with or without recursion. *)
Theorem give_permission_unknown_name (self : Directory) (name : string)
    (level : Permissions) (recursive : bool) (os : OS) :
  account_names host !! name = None →
  level ≠ DELETE →
  give_permission host self name (PyEnum level) recursive os
  = (Raise (pywintypes_error "LookupAccountName"), os).
Proof.
  intros Hname Hlevel. unfold give_permission.
  run (by unfold lift; rewrite check_permissions_Return).
  destruct recursive; (run (reflexivity)); (erewrite bind_Raise; [done|]);
    unfold _get_user_or_group_pysid, lift, LookupAccountName; by rewrite Hname.
Qed.

(** X7. On a path whose descriptor cannot be read, [_grant_permission]
    and [_deny_permission] raise [OSError] with the path, and write
    nothing.  Through [give_permission] that error is never seen: the
    strip comes first and fails with the error of [GetFileSecurity]
    itself, again with nothing written. *)
Theorem unreadable_descriptor (self : Directory) (name : string) (sid : PySID)
    (level : Permissions) (inherits propagation : bool) (os : OS) :
  account_names host !! name = Some sid →
  security os !! path self = None →
  level ≠ DELETE →
  _grant_permission sid (path self) level inherits propagation os
  = (Raise (OSError (path self)), logged (CallGetNamedSecurityInfo (path self)) os)
  ∧ _deny_permission sid (path self) level inherits propagation os
    = (Raise (OSError (path self)), logged (CallGetNamedSecurityInfo (path self)) os)
  ∧ give_permission host self name (PyEnum level) false os
    = (Raise (pywintypes_error "GetFileSecurity"),
       logged (CallGetFileSecurity (path self)) os).
Proof.
  intros Hname Hsd Hlevel. split_and!.
  - unfold _grant_permission. destruct (_set_flags inherits propagation).
    erewrite bind_Raise; [done|].
    unfold try_GetNamedSecurityInfo, GetNamedSecurityInfo, read_security, record,
      mbind, Py_bind.
    cbn [logged security]. by rewrite Hsd.
  - unfold _deny_permission. destruct (_set_flags inherits propagation).
    erewrite bind_Raise; [done|].
    unfold try_GetNamedSecurityInfo, GetNamedSecurityInfo, read_security, record,
      mbind, Py_bind.
    cbn [logged security]. by rewrite Hsd.
  - unfold give_permission.
    run (by unfold lift; rewrite check_permissions_Return).
    run (reflexivity).
    run (by unfold _get_user_or_group_pysid, lift, LookupAccountName; rewrite Hname).
    erewrite bind_Raise; [done|].
    unfold for_in, for_each. erewrite bind_Raise; [done|].
    erewrite bind_Raise; [done|].
    by apply reset_user_permissions_unreadable.
Qed.

(** X8. One entry whose SID resolves to no account, whoever it belongs
    to, makes the strip fail with the error of [LookupAccountSid] before
    anything is written; [give_permission] fails with it and grants
    nothing: the descriptor stays exactly as it was. *)
Theorem orphaned_entry_blocks (self : Directory) (name : string) (sid : PySID)
    (level : Permissions) (os : OS) (sd : SECURITY_DESCRIPTOR) :
  account_names host !! name = Some sid →
  security os !! path self = Some sd →
  Exists (λ ace, ¬ resolvable host (ace_sid ace)) (Dacl sd) →
  level ≠ DELETE →
  reset_user_permissions host (path self) sid os
  = (Raise (pywintypes_error "LookupAccountSid"),
     logged (CallGetFileSecurity (path self)) os)
  ∧ give_permission host self name (PyEnum level) false os
    = (Raise (pywintypes_error "LookupAccountSid"),
       logged (CallGetFileSecurity (path self)) os)
  ∧ security (logged (CallGetFileSecurity (path self)) os) = security os.
Proof.
  intros Hname Hsd Horphan Hlevel.
  assert (Hstrip : reset_user_permissions host (path self) sid os
                   = (Raise (pywintypes_error "LookupAccountSid"),
                      logged (CallGetFileSecurity (path self)) os))
    by by apply (reset_user_permissions_Raise _ _ _ _ sd), strip_list_unresolvable.
  split_and!; [done| |done].
  unfold give_permission.
  run (by unfold lift; rewrite check_permissions_Return).
  run (reflexivity).
  run (by unfold _get_user_or_group_pysid, lift, LookupAccountName; rewrite Hname).
  erewrite bind_Raise; [done|].
  unfold for_in, for_each. erewrite bind_Raise; [done|].
  by erewrite bind_Raise.
Qed.

End Failures.

(** ** The walk *)

Lemma flat_map_flat_map {A B C} (f : B → list C) (g : A → list B) (l : list A) :
  flat_map f (flat_map g l) = flat_map (λ x, flat_map f (g x)) l.
Proof.
  induction l as [|x l IH]; [done|]. simpl. by rewrite flat_map_app, IH.
Qed.

Lemma walked_Folder top name dirs files :
  walked top (Folder name dirs files)
  = map (os_path_join top) (map folder_name dirs)
    ++ map (os_path_join top) files
    ++ flat_map (λ d, walked (os_path_join top (folder_name d)) d) dirs.
Proof.
  unfold walked. simpl. rewrite flat_map_flat_map. by rewrite <- app_assoc.
Qed.



Lemma all_paths_paths_under vol : all_paths vol = paths_under (folder_name vol) vol.
Proof. reflexivity. Qed.

Section Walk.

Context (host : Host).

Lemma list_subdirectories_recurs_walked self os :
  list_subdirectories_recurs host self os
  = (Return (PyGenerator
       (map (abspath host)
          match find_folder (volume os) (path self) with
          | Some t => walked (path self) t
          | None => []
          end)), os).
Proof.
  unfold list_subdirectories_recurs. do 3 f_equal.
  destruct (find_folder (volume os) (path self)) as [t|]; [|done].
  unfold walked. induction (os_walk (path self) t) as [|[[d ds] fs] walk IH]; [done|].
  simpl. by rewrite IH, !map_app, !map_map.
Qed.


End Walk.

(** ** The content of a directory, and resets over the walk *)

Lemma find_folder_exists_at host vol path t :
  find_folder vol path = Some t → path ≠ "" → exists_at host vol path.
Proof.
  unfold find_folder. destruct (list_find _ _) as [[i entry]|] eqn:Hfind; [|done].
  intros _ Hpath. apply list_find_Some in Hfind as (Hin & Heq & _).
  simpl in Heq. apply (folder_exists_at host vol path entry.1); [done| |by rewrite Heq].
  apply list_elem_of_fmap_2. by eapply list_elem_of_lookup_2.
Qed.

Lemma find_folder_at_exists_at host vol path t :
  find_folder_at host vol path = Some t → exists_at host vol path.
Proof.
  unfold find_folder_at. case_bool_decide as Hpath; [done|].
  destruct (list_find _ _) as [[i entry]|] eqn:Hfind; [|done].
  intros _. apply list_find_Some in Hfind as (Hin & Hplace & _).
  simpl in Hplace. apply (folder_exists_at host vol path entry.1); [done| |done].
  apply list_elem_of_fmap_2. by eapply list_elem_of_lookup_2.
Qed.

Lemma os_listdir_nothing host enumeration path os :
  ¬ exists_at host (volume os) path →
  os_listdir host enumeration path os = (Raise (FileNotFoundError path), os).
Proof.
  intros Hnew. unfold os_listdir.
  destruct (find_folder_at host (volume os) path) as [t|] eqn:Hfind.
  - by apply find_folder_at_exists_at in Hfind.
  - by rewrite bool_decide_eq_false_2.
Qed.

(** Resets over a list of readable paths: each is reset, the rest is
    left alone. *)
Lemma for_each_reset items : ∀ os,
  Forall (λ target, is_Some (security os !! target)) items →
  ∃ os',
    for_each items _reset_permissions os = (Return tt, os')
    ∧ volume os' = volume os
    ∧ (∀ target, target ∈ items →
         ∃ sd, security os !! target = Some sd
               ∧ security os' !! target
                 = Some {| Dacl := baseline_entries;
                           dacl_protected := dacl_protected sd |})
    ∧ (∀ target, target ∉ items → security os' !! target = security os !! target).
Proof.
  induction items as [|first items IH]; intros os Hall.
  - exists os. split_and!; [done|done| |done]. intros target Hin. by inversion Hin.
  - apply Forall_cons in Hall as [[sd Hsd] Hall].
    set (sd' := {| Dacl := baseline_entries; dacl_protected := dacl_protected sd |}).
    set (os1 := after_SetFileSecurity first sd' os).
    destruct (IH os1) as (os' & Hloop & Hvolume & Hreset & Hframe).
    { eapply Forall_impl; [exact Hall|]. intros target [sd0 Hsd0]. simpl.
      destruct (decide (first = target)) as [->|Hne].
      - rewrite lookup_insert_eq. eauto.
      - rewrite lookup_insert_ne by done. eauto. }
    exists os'. split_and!.
    + simpl. run (by apply (_reset_permissions_Return first os sd)). done.
    + by rewrite Hvolume.
    + intros target Hin.
      destruct (decide (target ∈ items)) as [Hrest|Hrest].
      * destruct (Hreset target Hrest) as (sd1 & Hsd1 & Hsd1').
        simpl in Hsd1. destruct (decide (first = target)) as [->|Hne].
        -- rewrite lookup_insert_eq in Hsd1. injection Hsd1 as <-. eauto.
        -- rewrite lookup_insert_ne in Hsd1 by done. eauto.
      * apply elem_of_cons in Hin as [->|Hin]; [|done].
        exists sd. split; [done|]. rewrite Hframe by done. apply lookup_insert_eq.
    + intros target Hout. apply not_elem_of_cons in Hout as [Hne Hout].
      rewrite Hframe by done. simpl. by rewrite lookup_insert_ne.
Qed.

Lemma for_each_app_Raise {A} (before after : list string) (bad : string)
    (body : string → Py A) os os1 e os2 :
  for_each before body os = (Return tt, os1) →
  body bad os1 = (Raise e, os2) →
  for_each (before ++ bad :: after) body os = (Raise e, os2).
Proof.
  intros Hloop Hbad. revert os Hloop.
  induction before as [|first before IH]; intros os Hloop; simpl in *.
  - injection Hloop as <-. by erewrite bind_Raise.
  - unfold mbind, Py_bind in *.
    destruct (body first os) as [[a|e0] os0]; [by apply IH|done].
Qed.

Section Listing.

Context (host : Host).

(** X10. On a path where nothing exists, under any spelling,
    [list_dir_content] raises [FileNotFoundError] when it is called, while
    the recursive listing (of a path that is not empty) is an empty
    generator.  On a folder, whatever
    the order in which the system lists the names, [list_dir_content]
    holds the path of each entry of the folder once, joined and not made
    absolute; and when the path is spelled as the volume spells it, the
    recursive listing begins with the same paths made absolute, in an
    order of its own. *)
Theorem list_dir_content_and_walk (enumeration : list string → list string)
    (self : Directory) (os : OS) :
  (∀ names, enumeration names ≡ₚ names) →
  (¬ exists_at host (volume os) (path self) →
   list_dir_content host enumeration self os
   = (Raise (FileNotFoundError (path self)), os)
   ∧ (path self ≠ "" →
      list_subdirectories_recurs host self os = (Return (PyGenerator []), os)))
  ∧ (∀ name dirs files,
       find_folder_at host (volume os) (path self) = Some (Folder name dirs files) →
       ∃ content,
         list_dir_content host enumeration self os
         = (Return (PyGenerator content), os)
         ∧ content ≡ₚ map (os_path_join (path self)) (map folder_name dirs ++ files)
         ∧ length content = (length dirs + length files)%nat
         ∧ (find_folder (volume os) (path self) = Some (Folder name dirs files) →
            ∃ first deeper,
              list_subdirectories_recurs host self os
              = (Return (PyGenerator (first ++ deeper)), os)
              ∧ first ≡ₚ map (abspath host) content)).
Proof.
  intros Horder. split.
  - intros Hnew. split.
    + unfold list_dir_content. erewrite bind_Raise; [done|].
      by apply os_listdir_nothing.
    + intros Hpath. rewrite list_subdirectories_recurs_walked.
      destruct (find_folder (volume os) (path self)) as [t|] eqn:Hfind; [|done].
      by apply (find_folder_exists_at host) in Hfind.
  - intros name dirs files Hfind. eexists. split_and!.
    + unfold list_dir_content, os_listdir, mbind, Py_bind. by rewrite Hfind.
    + by rewrite Horder.
    + by rewrite length_map, Horder, length_app, length_map.
    + intros Hexact.
      rewrite list_subdirectories_recurs_walked, Hexact, walked_Folder.
      rewrite app_assoc, map_app, <- (map_app (os_path_join (path self))).
      eexists _, _. split; [done|].
      by rewrite Horder.
Qed.


(** X12. No rollback: when the listing reaches a path whose descriptor
    cannot be read after paths whose descriptors can, the recursive reset
    raises the error of [GetFileSecurity], the paths before it stay reset,
    and no other descriptor has changed. *)
Theorem reset_permissions_recursive_partial (self : Directory) (os : OS)
    (before after : list string) (bad : string) :
  list_subdirectories_recurs host self os
  = (Return (PyGenerator (before ++ bad :: after)), os) →
  Forall (λ target, is_Some (security os !! target)) before →
  security os !! bad = None →
  ∃ os',
    reset_permissions host self true os
    = (Raise (pywintypes_error "GetFileSecurity"), os')
    ∧ (∀ target, target ∈ before →
         ∃ sd, security os !! target = Some sd
               ∧ security os' !! target
                 = Some {| Dacl := baseline_entries;
                           dacl_protected := dacl_protected sd |})
    ∧ (∀ target, target ∉ before → security os' !! target = security os !! target).
Proof.
  intros Hwalk Hall Hbad.
  destruct (for_each_reset before os Hall) as (os1 & Hloop & _ & Hreset & Hframe).
  assert (Hout : bad ∉ before).
  { intros Hin. destruct (Hreset bad Hin) as (sd & Hsd & _). congruence. }
  assert (Hbad1 : security os1 !! bad = None) by by rewrite Hframe.
  exists (logged (CallGetFileSecurity bad) os1). split_and!; [|done..].
  unfold reset_permissions. run (exact Hwalk).
  rewrite for_in_generator, bind_mret.
  erewrite bind_Raise; [done|].
  eapply for_each_app_Raise; [exact Hloop|].
  unfold _reset_permissions. erewrite bind_Raise; [done|].
  unfold GetFileSecurity, read_security, record, mbind, Py_bind.
  cbn [logged security]. by rewrite Hbad1.
Qed.

(** X13. A reset is idempotent: a second [_reset_permissions] of the
    same path has the outcome of the first and leaves every descriptor as
    the first left it. *)
Theorem _reset_permissions_idempotent (target : string) (os : OS) :
  let first := _reset_permissions target os in
  let second := _reset_permissions target first.2 in
  second.1 = first.1 ∧ security second.2 = security first.2.
Proof.
  cbv zeta. destruct (security os !! target) as [sd|] eqn:Hsd.
  - rewrite (_reset_permissions_Return target os sd Hsd). cbn [fst snd].
    erewrite _reset_permissions_Return by apply lookup_insert_eq.
    split; [done|]. simpl. by rewrite insert_insert_eq.
  - assert (Hfail : ∀ os0, security os0 !! target = None →
              _reset_permissions target os0
              = (Raise (pywintypes_error "GetFileSecurity"),
                 logged (CallGetFileSecurity target) os0)).
    { intros os0 Hnone. unfold _reset_permissions. erewrite bind_Raise; [done|].
      unfold GetFileSecurity, read_security, record, mbind, Py_bind.
      cbn [logged security]. by rewrite Hnone. }
    rewrite (Hfail os) by done. cbn [fst snd]. by rewrite Hfail.
Qed.

End Listing.

(** ** What the recursive call leaves behind *)

Section RecursiveCall.

Context (host : Host).



End RecursiveCall.

(** ** Failures of the constructor *)

Section ConstructorFailures.

Context (host : Host).

(** X15. The constructor fails before it touches the machine when the
    path is no string ([TypeError] from [abspath], or [NotAValidPath] for
    [bytes]), and when nothing is at the place the path names and the
    folder that is to contain it does not exist either
    ([FileNotFoundError]: no parent is created, nothing is reset).  On a
    path that exists, spelled as the volume spells it, whose descriptor
    cannot be read it fails in the reset, with no descriptor written,
    unless [reset_perms] is unset. *)
Theorem init_failures (s : string) (level : Permissions) (reset_perms : bool)
    (os : OS) :
  let target := abspath host s in
  __init__ host PyNone reset_perms os = (Raise TypeError, os)
  ∧ __init__ host (PyEnum level) reset_perms os = (Raise TypeError, os)
  ∧ __init__ host (PyBytes s) reset_perms os = (Raise NotAValidPath, os)
  ∧ (¬ exists_at host (volume os) target →
     mkdir_in host (folder_name (volume os)) (volume os) target = None →
     __init__ host (PyStr s) reset_perms os = (Raise (FileNotFoundError target), os))
  ∧ (target ∈ all_paths (volume os) →
     exists_at host (volume os) target →
     security os !! target = None →
     __init__ host (PyStr s) true os
     = (Raise (pywintypes_error "GetFileSecurity"),
        logged (CallGetFileSecurity target) os)
     ∧ __init__ host (PyStr s) false os = (Return {| _path := target |}, os)).
Proof.
  intros target. split_and!; [done..| |].
  - intros Hnew Hmkdir. unfold __init__.
    run (reflexivity). run (reflexivity).
    run (by apply file_or_dir_exists_false).
    erewrite bind_Raise; [done|].
    unfold create_dir. cbn [path _path negb str_value]. fold target.
    by rewrite bool_decide_eq_false_2, Hmkdir.
  - intros _ Hold Hsd.
    assert (Hexists : file_or_dir_exists host target os = (Return true, os))
      by by apply file_or_dir_exists_true.
    split.
    + unfold __init__.
      run (reflexivity). run (reflexivity). run (exact Hexists). run (reflexivity).
      erewrite bind_Raise; [done|].
      unfold reset_permissions. run (reflexivity).
      erewrite bind_Raise; [done|]. unfold for_in, for_each.
      erewrite bind_Raise; [done|]. erewrite bind_Raise; [done|].
      unfold _reset_permissions. erewrite bind_Raise; [done|].
      unfold GetFileSecurity, read_security, record, mbind, Py_bind.
      cbn [logged security path _path str_value]. fold target. by rewrite Hsd.
    + unfold __init__.
      run (reflexivity). run (reflexivity). run (exact Hexists). by run (reflexivity).
Qed.

End ConstructorFailures.

(** ** Copying and moving *)

(** X16. Whatever the library calls below it do, [copy_to] answers
    [True] exactly when something is at the place the source names and
    either nothing is at the place the destination names or [overwrite]
    is set, under any spelling of the two, and then only after [makedirs]
    and [copy] have returned; when it answers [False] it has called
    neither and the machine is as it was. *)
Theorem copy_to_answer (host : Host) (os_path_dirname : string → string)
    (os_makedirs : string → Py unit) (shutil_copy : string → string → Py unit)
    (source_path destination_path : string) (overwrite : bool) (os : OS) :
  (exists_at host (volume os) source_path
   ∧ (overwrite = true ∨ ¬ exists_at host (volume os) destination_path) →
   copy_to host os_path_dirname os_makedirs shutil_copy
     source_path destination_path overwrite os
   = (os_makedirs (os_path_dirname destination_path);;
      shutil_copy source_path destination_path;;
      mret true) os)
  ∧ (¬ (exists_at host (volume os) source_path
        ∧ (overwrite = true ∨ ¬ exists_at host (volume os) destination_path)) →
     copy_to host os_path_dirname os_makedirs shutil_copy
       source_path destination_path overwrite os
     = (Return false, os))
  ∧ (∀ answer os',
       copy_to host os_path_dirname os_makedirs shutil_copy
         source_path destination_path overwrite os
       = (Return answer, os') →
       (answer = true ↔
        exists_at host (volume os) source_path
        ∧ (overwrite = true ∨ ¬ exists_at host (volume os) destination_path))
       ∧ (answer = false → os' = os)).
Proof.
  assert (Hgo : exists_at host (volume os) source_path
                ∧ (overwrite = true
                   ∨ ¬ exists_at host (volume os) destination_path) →
          copy_to host os_path_dirname os_makedirs shutil_copy
            source_path destination_path overwrite os
          = (os_makedirs (os_path_dirname destination_path);;
             shutil_copy source_path destination_path;;
             mret true) os).
  { intros [Hsource Hfree]. unfold copy_to.
    run (by apply file_or_dir_exists_true).
    destruct overwrite; [by run (reflexivity)|].
    destruct Hfree as [|Hfree]; [done|].
    run (by unfold mbind, Py_bind; rewrite file_or_dir_exists_false).
    done. }
  assert (Hstop : ¬ (exists_at host (volume os) source_path
                     ∧ (overwrite = true
                        ∨ ¬ exists_at host (volume os) destination_path)) →
          copy_to host os_path_dirname os_makedirs shutil_copy
            source_path destination_path overwrite os
          = (Return false, os)).
  { intros Hnot. unfold copy_to.
    destruct (decide (exists_at host (volume os) source_path)) as [Hsource|Hsource].
    - run (by apply file_or_dir_exists_true).
      destruct overwrite; [tauto|].
      destruct (decide (exists_at host (volume os) destination_path)); [|tauto].
      run (by unfold mbind, Py_bind; rewrite file_or_dir_exists_true).
      done.
    - run (by apply file_or_dir_exists_false).
      by run (reflexivity). }
  split_and!; [done..|]. intros answer os' Hanswer.
  destruct (decide (exists_at host (volume os) source_path
                    ∧ (overwrite = true
                       ∨ ¬ exists_at host (volume os) destination_path)))
    as [Hyes|Hno].
  - rewrite Hgo in Hanswer by done. revert Hanswer.
    unfold mbind, Py_bind, mret, Py_ret.
    destruct (os_makedirs _ os) as [[[]|?] os1]; [|done].
    destruct (shutil_copy _ _ os1) as [[[]|?] os2]; [|done].
    intros [= <- <-]. done.
  - rewrite Hstop in Hanswer by done. injection Hanswer as <- <-. done.
Qed.

(** X17. Whatever the library calls below it do, [move_dir_to] answers
    [True] exactly when nothing is at the place the destination names,
    under any spelling, or [overwrite] is set, and then the instance holds
    the destination as it was given, not made absolute; when it answers
    [False] the instance and the machine are as they were. *)
Theorem move_dir_to_answer (host : Host) (os_path_dirname : string → string)
    (os_makedirs : string → Py unit) (shutil_move : string → string → Py unit)
    (self : Directory) (destination : string) (overwrite : bool) (os : OS)
    (answer : bool) (self' : Directory) (os' : OS) :
  move_dir_to host os_path_dirname os_makedirs shutil_move
    self destination overwrite os
  = (Return (answer, self'), os') →
  (answer = true ↔ ¬ exists_at host (volume os) destination ∨ overwrite = true)
  ∧ (answer = true → path self' = destination)
  ∧ (answer = false → self' = self ∧ os' = os).
Proof.
  unfold move_dir_to.
  erewrite bind_Return; [|reflexivity].
  destruct (decide (exists_at host (volume os) destination)) as [Htaken|Hfree].
  - rewrite bool_decide_eq_true_2 by done. destruct overwrite; simpl.
    + unfold mbind, Py_bind, mret, Py_ret.
      destruct (os_makedirs _ os) as [[[]|?] os1]; [|done].
      destruct (shutil_move _ _ os1) as [[[]|?] os2]; [|done].
      intros [= <- <- <-]. split_and!; [tauto|done|done].
    + intros [= <- <- <-]. split_and!; [|done|done].
      split; [done|]. intros [?|?]; done.
  - rewrite bool_decide_eq_false_2 by done. simpl.
    unfold mbind, Py_bind, mret, Py_ret.
    destruct (os_makedirs _ os) as [[[]|?] os1]; [|done].
    destruct (shutil_move _ _ os1) as [[[]|?] os2]; [|done].
    intros [= <- <- <-]. split_and!; [tauto|done|done].
Qed.

(** ** The masks of [constants.py] *)

(** X18. The seven members of [Permissions] have pairwise distinct
    values, as [@unique] demands.  Bit by bit, [READ] lies within
    [READ_WRITE] and [READ_WRITE] within [FULL_CONTROL]; the right to
    delete lies within [MODIFY] and [FULL_CONTROL] and is no part of
    [READ_WRITE]; and [MODIFY], made of generic rights, does not lie
    within [FULL_CONTROL]. *)
Theorem Permissions_values :
  NoDup (map value [READ; READ_WRITE; DELETE; MODIFY; FULL_CONTROL;
                    MODIFY_PROTECTED; FULL_DENY])
  ∧ Z.land (value READ) (value READ_WRITE) = value READ
  ∧ Z.land (value READ_WRITE) (value FULL_CONTROL) = value READ_WRITE
  ∧ Z.land (value DELETE) (value MODIFY) = value DELETE
  ∧ Z.land (value DELETE) (value FULL_CONTROL) = value DELETE
  ∧ Z.land (value DELETE) (value READ_WRITE) = 0
  ∧ Z.land (value MODIFY) (value FULL_CONTROL) ≠ value MODIFY.
Proof. split_and!; compute_done. Qed.

(** * Properties of [dns.py] and [user_list.py] *)

(** ** Splitting and joining *)

Lemma split_length sep s : length (str.split sep s) = S (str.count sep s).
Proof.
  induction s as [|c s IH]; [done|]. simpl. case_decide; simpl; [by rewrite IH|].
  destruct (str.split sep s); simpl in *; lia.
Qed.

Lemma count_occurs sep s :
  str.count sep s = 0%nat ↔ str.occurs (String sep "") s = false.
Proof.
  induction s as [|c s IH]; [done|]. simpl.
  destruct (Ascii.ascii_dec sep c) as [->|Hne].
  - rewrite decide_True by done. simpl. split; [lia|].
    destruct s; done.
  - rewrite decide_False by done. simpl. rewrite IH.
    destruct (str.occurs (String sep "") s); simpl; by rewrite ?orb_false_r.
Qed.

Lemma split_none sep s :
  str.occurs (String sep "") s = false → str.split sep s = [s].
Proof.
  induction s as [|c s IH]; [done|]. simpl.
  destruct (Ascii.ascii_dec sep c) as [->|Hne].
  - destruct s; done.
  - intros H. apply orb_false_iff in H as [_ H]. rewrite decide_False by done.
    by rewrite IH.
Qed.

Lemma append_String c s t : (String c s ++ t)%string = String c (s ++ t)%string.
Proof. reflexivity. Qed.

Lemma append_EmptyString t : ("" ++ t)%string = t.
Proof. reflexivity. Qed.

Lemma split_app sep piece rest :
  str.occurs (String sep "") piece = false →
  str.split sep (piece ++ String sep rest) = piece :: str.split sep rest.
Proof.
  induction piece as [|c piece IH]; simpl.
  - intros _. by rewrite decide_True.
  - destruct (Ascii.ascii_dec sep c) as [->|Hne].
    + destruct piece; done.
    + intros H. apply orb_false_iff in H as [_ H]. rewrite decide_False by done.
      by rewrite IH.
Qed.

Lemma join_cons glue piece next pieces :
  str.join glue (piece :: next :: pieces)
  = (piece ++ glue ++ str.join glue (next :: pieces))%string.
Proof. reflexivity. Qed.

Lemma split_join sep pieces :
  pieces ≠ [] →
  Forall (λ piece, str.occurs (String sep "") piece = false) pieces →
  str.split sep (str.join (String sep "") pieces) = pieces.
Proof.
  induction pieces as [|piece [|next pieces] IH]; [done|..]; intros _ Hall.
  - apply split_none. by inversion Hall.
  - apply Forall_cons in Hall as [Hpiece Hall].
    rewrite join_cons, append_String, append_EmptyString.
    rewrite split_app by done. by rewrite IH.
Qed.

Lemma count_app sub s1 s2 :
  str.count sub (s1 ++ s2)%string = (str.count sub s1 + str.count sub s2)%nat.
Proof. induction s1 as [|c s1 IH]; [done|]. simpl. rewrite IH. lia. Qed.

Lemma occurs_app sep s1 s2 :
  str.occurs (String sep "") s1 = false →
  str.occurs (String sep "") s2 = false →
  str.occurs (String sep "") (s1 ++ s2) = false.
Proof. rewrite <- !count_occurs, count_app. lia. Qed.

Lemma occurs_join sep glue pieces :
  str.occurs (String sep "") glue = false →
  Forall (λ piece, str.occurs (String sep "") piece = false) pieces →
  str.occurs (String sep "") (str.join glue pieces) = false.
Proof.
  intros Hglue. induction pieces as [|piece [|next pieces] IH]; [done|..]; intros Hall.
  - by inversion Hall.
  - apply Forall_cons in Hall as [Hpiece Hall]. rewrite join_cons.
    apply occurs_app; [done|]. apply occurs_app; [done|]. by apply IH.
Qed.

(** ** The prefix [dc=] *)

Lemma join_dc pieces :
  pieces ≠ [] →
  ("dc=" ++ str.join ",dc=" pieces)%string
  = str.join "," (map (String.append "dc=") pieces).
Proof.
  induction pieces as [|piece [|next pieces] IH]; [done|done|]. intros _.
  rewrite join_cons. cbn [map]. rewrite join_cons. cbn [map] in IH.
  by rewrite <- IH.
Qed.

Lemma prefix_dc_free piece :
  str.occurs "dc=" piece = false → String.prefix "dc=" piece = false.
Proof.
  destruct piece; cbn [str.occurs]; intros H; by apply orb_false_iff in H as [? _].
Qed.

(** A piece free of [dc=] does not begin with it, whatever follows the
    dot after it. *)
Lemma prefix_dc_dot piece rest :
  str.occurs "dc=" piece = false →
  String.prefix "dc=" (piece ++ String "." rest) = false.
Proof.
  intros Hfree%prefix_dc_free.
  destruct piece as [|c1 [|c2 [|c3 piece]]];
    rewrite ?append_String, ?append_EmptyString;
    cbn [String.prefix] in *;
    repeat (destruct (ascii_dec _ _); try done).
  by destruct piece.
Qed.

Lemma occurs_dc_tail c piece :
  str.occurs "dc=" (String c piece) = false → str.occurs "dc=" piece = false.
Proof. cbn [str.occurs]. intros H. by apply orb_false_iff in H as [_ ?]. Qed.

Lemma replace_dc_begin s :
  str.replace "dc=" "" ("dc=" ++ s) = str.replace "dc=" "" s.
Proof. unfold str.replace. simpl. by destruct s. Qed.

Lemma replace_dc_free piece :
  str.occurs "dc=" piece = false → str.replace "dc=" "" piece = piece.
Proof.
  unfold str.replace. induction piece as [|c piece IH]; [done|]. intros Hfree.
  pose proof (prefix_dc_free _ Hfree) as Hprefix.
  cbn [str.replace_from]. rewrite Hprefix. f_equal. by eapply IH, occurs_dc_tail.
Qed.

Lemma replace_dc_dot piece rest :
  str.occurs "dc=" piece = false →
  str.replace "dc=" "" (piece ++ String "." rest)
  = (piece ++ String "." (str.replace "dc=" "" rest))%string.
Proof.
  unfold str.replace. induction piece as [|c piece IH]; [done|]. intros Hfree.
  pose proof (prefix_dc_dot _ rest Hfree) as Hprefix.
  rewrite append_String in *.
  cbn [str.replace_from]. rewrite Hprefix, append_String. f_equal.
  by eapply IH, occurs_dc_tail.
Qed.

Lemma replace_join_dc pieces :
  Forall (λ piece, str.occurs "dc=" piece = false) pieces →
  str.replace "dc=" "" (str.join "." (map (String.append "dc=") pieces))
  = str.join "." pieces.
Proof.
  induction pieces as [|piece [|next pieces] IH]; [done|..]; intros Hall.
  - simpl. rewrite replace_dc_begin. apply replace_dc_free. by inversion Hall.
  - apply Forall_cons in Hall as [Hpiece Hall].
    change (str.join "." (piece :: next :: pieces))
      with (piece ++ String "." (str.join "." (next :: pieces)))%string.
    change (str.join "." (map (String.append "dc=") (piece :: next :: pieces)))
      with ("dc=" ++ (piece ++ String "."
              (str.join "." (map (String.append "dc=") (next :: pieces)))))%string.
    rewrite replace_dc_begin, replace_dc_dot by done. by rewrite IH.
Qed.

Lemma _is_std_dns_occurs d : dns._is_std_dns d = str.occurs "." d.
Proof.
  unfold dns._is_std_dns. case_bool_decide as Hd.
  - cbv zeta. rewrite split_length.
    destruct (str.occurs "." d) eqn:Hdot.
    + rewrite bool_decide_eq_true_2; [done|].
      assert (str.count "." d ≠ 0%nat); [|lia].
      rewrite count_occurs. congruence.
    + apply count_occurs in Hdot. rewrite Hdot. by rewrite bool_decide_eq_false_2 by lia.
  - by destruct d.
Qed.

Lemma join_two_nonempty glue piece next pieces :
  glue ≠ "" → str.join glue (piece :: next :: pieces) ≠ "".
Proof.
  intros Hglue. rewrite join_cons. destruct piece; [|done].
  rewrite append_EmptyString. by destruct glue.
Qed.

Lemma _is_ldap_dns_free d :
  str.occurs "," d = false →
  String.prefix "dc=" d = false →
  dns._is_ldap_dns d = false.
Proof.
  intros Hcomma Hprefix. unfold dns._is_ldap_dns. case_bool_decide; [|done].
  cbv zeta. rewrite split_none by done. cbn [forallb].
  rewrite bool_decide_eq_false_2; [done|].
  intros Hsub. change 3%nat with (String.length "dc=") in Hsub.
  apply prefix_correct in Hsub. congruence.
Qed.

Lemma _is_ldap_dns_join labels :
  labels ≠ [] →
  Forall (λ label, str.occurs "," label = false) labels →
  dns._is_ldap_dns (str.join "," (map (String.append "dc=") labels)) = true
  ∧ str.split "," (str.join "," (map (String.append "dc=") labels))
    = map (String.append "dc=") labels.
Proof.
  intros Hlabels Hcomma.
  assert (Hsplit : str.split "," (str.join "," (map (String.append "dc=") labels))
                   = map (String.append "dc=") labels).
  { apply split_join; [by destruct labels|].
    apply Forall_map. eapply Forall_impl; [exact Hcomma|].
    intros label Hlabel. by apply (occurs_app "," "dc=" label). }
  split; [|done]. unfold dns._is_ldap_dns.
  rewrite bool_decide_eq_true_2.
  - cbv zeta. rewrite Hsplit. apply forallb_forall. intros e Hin.
    apply in_map_iff in Hin as (label & <- & _). cbv beta.
    apply bool_decide_eq_true_2. rewrite !append_String, append_EmptyString.
    by destruct label.
  - destruct labels as [|label [|next labels]]; [done|done|].
    cbn [map]. by apply join_two_nonempty.
Qed.

(** ** [dns.py] *)

(** X19. [_is_std_dns] holds of exactly the strings with a dot in them,
    whatever else they are made of; and the switcher raises
    [NotAValidDNS] exactly on the strings that are not in LDAP form and
    have no dot. *)
Theorem dns_modes (d : string) :
  dns._is_std_dns d = str.occurs "." d
  ∧ (dns.dns_ldap_path_switcher d = inl dns.NotAValidDNS
     ↔ dns._is_ldap_dns d = false ∧ str.occurs "." d = false).
Proof.
  split; [apply _is_std_dns_occurs|].
  unfold dns.dns_ldap_path_switcher. rewrite _is_std_dns_occurs.
  destruct (dns._is_ldap_dns d), (str.occurs "." d); cbv zeta; split;
    (done || by intros []).
Qed.

(** X20. Between the two forms of a domain name of two labels or more,
    none of which holds a dot, a comma or [dc=], the switcher is its own
    inverse: the dotted form gives the form with [dc=] before each label
    and commas between, and that one gives the dotted form back. *)
Theorem dns_round_trip (labels : list string) :
  (2 ≤ length labels)%nat →
  Forall (λ label, str.occurs "." label = false
                   ∧ str.occurs "," label = false
                   ∧ str.occurs "dc=" label = false) labels →
  let std := str.join "." labels in
  let ldap := str.join "," (map (String.append "dc=") labels) in
  dns.dns_ldap_path_switcher std = inr ldap
  ∧ dns.dns_ldap_path_switcher ldap = inr std.
Proof.
  intros Hlength Hall std ldap.
  assert (Hdot : Forall (λ label, str.occurs "." label = false) labels)
    by (eapply Forall_impl; [exact Hall|]; by intros ? (? & ? & ?)).
  assert (Hcomma : Forall (λ label, str.occurs "," label = false) labels)
    by (eapply Forall_impl; [exact Hall|]; by intros ? (? & ? & ?)).
  assert (Hdc : Forall (λ label, str.occurs "dc=" label = false) labels)
    by (eapply Forall_impl; [exact Hall|]; by intros ? (? & ? & ?)).
  assert (Hlabels : labels ≠ []) by (destruct labels; [simpl in *; lia|done]).
  split.
  - unfold dns.dns_ldap_path_switcher.
    assert (Hsplit : str.split "." std = labels) by by apply split_join.
    rewrite _is_ldap_dns_free; cycle 1.
    { by apply occurs_join. }
    { destruct labels as [|label [|next labels]]; [simpl in *; lia..|].
      unfold std. rewrite join_cons, append_String, append_EmptyString.
      apply prefix_dc_dot. by inversion Hdc. }
    rewrite _is_std_dns_occurs.
    assert (str.occurs "." std = true) as ->.
    { destruct (str.occurs "." std) eqn:Hnone; [done|].
      apply split_none in Hnone. rewrite Hsplit in Hnone.
      apply (f_equal length) in Hnone. simpl in Hnone. lia. }
    cbv zeta. rewrite Hsplit. by rewrite join_dc.
  - unfold dns.dns_ldap_path_switcher.
    destruct (_is_ldap_dns_join labels Hlabels Hcomma) as [Hldap Hsplit].
    fold ldap in Hldap, Hsplit. rewrite Hldap. cbv zeta. rewrite Hsplit.
    by rewrite replace_join_dc.
Qed.

(** X21. With one label the way back is closed: the LDAP form of a
    single label free of dots, commas and [dc=] is switched to the bare
    label, and the bare label is refused. *)
Theorem dns_single_label (label : string) :
  str.occurs "." label = false →
  str.occurs "," label = false →
  str.occurs "dc=" label = false →
  dns.dns_ldap_path_switcher ("dc=" ++ label) = inr label
  ∧ dns.dns_ldap_path_switcher label = inl dns.NotAValidDNS.
Proof.
  intros Hdot Hcomma Hdc. split.
  - unfold dns.dns_ldap_path_switcher.
    destruct (_is_ldap_dns_join [label]) as [Hldap Hsplit];
      [done|by constructor|].
    cbn [map str.join] in Hldap, Hsplit. rewrite Hldap. cbv zeta.
    rewrite Hsplit. cbn [str.join].
    by rewrite replace_dc_begin, replace_dc_free.
  - unfold dns.dns_ldap_path_switcher.
    rewrite _is_ldap_dns_free by (done || by apply prefix_dc_free).
    by rewrite _is_std_dns_occurs, Hdot.
Qed.

(** ** [user_list.py] *)

Section UserList.

Import user_list.

Lemma user_of_line_fields line :
  ∃ fields,
    length fields = S (separators line)
    ∧ user_of_line line
      = (sn ← getitem fields 0;
         givenName ← getitem fields 1;
         class ← getitem fields 2;
         birthday ← getitem fields 3;
         mret (<["sn" := sn]> (<["givenName" := givenName]> (<["class" := class]>
                (<["birthday" := str.strip birthday]> ∅))))).
Proof.
  unfold user_of_line, separators. case_bool_decide.
  - exists (str.split ";" line). split; [|done]. rewrite split_length. lia.
  - exists (str.split "," line). split; [|done]. rewrite split_length. lia.
Qed.

Lemma user_of_line_Return line :
  (3 ≤ separators line)%nat →
  ∃ user,
    user_of_line line = Return user
    ∧ dom user = ({["sn"; "givenName"; "class"; "birthday"]} : gset string).
Proof.
  intros Hline. destruct (user_of_line_fields line) as (fields & Hlength & ->).
  destruct fields as [|sn [|givenName [|class [|birthday fields]]]];
    simpl in Hlength; [lia..|].
  eexists. split; [reflexivity|]. rewrite !dom_insert_L, dom_empty_L. set_solver.
Qed.

Lemma user_of_line_Raise line :
  (separators line < 3)%nat → user_of_line line = Raise IndexError.
Proof.
  intros Hline. destruct (user_of_line_fields line) as (fields & Hlength & ->).
  destruct fields as [|sn [|givenName [|class [|birthday fields]]]];
    simpl in Hlength; (done || lia).
Qed.

Lemma append_users_Return file : ∀ user_lst,
  Forall (λ line, (3 ≤ separators line)%nat) file →
  ∃ users,
    append_users file user_lst = Return (user_lst ++ users)
    ∧ length users = length file
    ∧ Forall (λ user, dom user
                      = ({["sn"; "givenName"; "class"; "birthday"]} : gset string))
        users.
Proof.
  induction file as [|line file IH]; intros user_lst Hall.
  - exists []. by rewrite app_nil_r.
  - apply Forall_cons in Hall as [Hline Hall].
    destruct (user_of_line_Return line Hline) as (user & Huser & Hdom).
    destruct (IH (user_lst ++ [user]) Hall) as (users & Hloop & Hlength & Hdoms).
    exists (user :: users). simpl. rewrite Huser. simpl. rewrite Hloop.
    split_and!; [by rewrite <- app_assoc|by rewrite Hlength|by constructor].
Qed.

Lemma append_users_Raise file : ∀ user_lst,
  Exists (λ line, (separators line < 3)%nat) file →
  append_users file user_lst = Raise IndexError.
Proof.
  induction file as [|line file IH]; intros user_lst Hbad; [by inversion Hbad|].
  simpl. destruct (decide (separators line < 3)%nat) as [Hline|Hline].
  - by rewrite user_of_line_Raise.
  - destruct (user_of_line_Return line) as (user & -> & _); [lia|]. simpl.
    apply IH. by inversion Hbad.
Qed.

(** X22. All or nothing: when every line has three separators or more,
    of the kind it is split at (semicolons unless the commas outnumber
    them), the result has one dictionary for each line, in order, each
    with the four keys; one line with fewer, wherever it stands, and the
    result is the empty list, the lines read before it included.  No
    exception leaves the function. *)
Theorem file_content_all_or_nothing (file : list string) :
  (Forall (λ line, (3 ≤ separators line)%nat) file →
   ∃ users,
     __file_content_to_lst__ file = Return users
     ∧ length users = length file
     ∧ Forall (λ user, dom user
                       = ({["sn"; "givenName"; "class"; "birthday"]} : gset string))
         users)
  ∧ (Exists (λ line, (separators line < 3)%nat) file →
     __file_content_to_lst__ file = Return [])
  ∧ ∀ e, __file_content_to_lst__ file ≠ Raise e.
Proof.
  assert (Hgood : Forall (λ line, (3 ≤ separators line)%nat) file →
    ∃ users,
      __file_content_to_lst__ file = Return users
      ∧ length users = length file
      ∧ Forall (λ user, dom user
                        = ({["sn"; "givenName"; "class"; "birthday"]} : gset string))
          users).
  { intros Hall. destruct (append_users_Return file [] Hall) as (users & Hloop & ?).
    exists users. split; [|done]. unfold __file_content_to_lst__. by rewrite Hloop. }
  assert (Hbad : Exists (λ line, (separators line < 3)%nat) file →
    __file_content_to_lst__ file = Return []).
  { intros Hex. unfold __file_content_to_lst__. by rewrite append_users_Raise. }
  split_and!; [done..|]. intros e.
  destruct (decide (Forall (λ line, (3 ≤ separators line)%nat) file)) as [Hall|Hnot].
  - destruct (Hgood Hall) as (users & -> & _). done.
  - rewrite Hbad; [done|]. apply not_Forall_Exists in Hnot; [|solve_decision].
    eapply Exists_impl; [exact Hnot|]. simpl. lia.
Qed.

End UserList.

(** * The further properties on the school share *)

Section FurtherCases.

Import Scenario Cases.

Lemma give_permission_entries_witness :
  account_names host !! "students" = Some students
  ∧ security os0 !! path a = Some (unprotected baseline_entries)
  ∧ Forall (λ ace, resolvable host (ace_sid ace)) baseline_entries
  ∧ resolvable host students
  ∧ FULL_DENY ≠ DELETE
  ∧ ∃ os' sd',
      give_permission host a "students" (PyEnum FULL_DENY) false os0 = (Return tt, os')
      ∧ security os' !! path a = Some sd'
      ∧ entries_of students (Dacl sd') ≡ₚ level_entries students FULL_DENY
      ∧ length (entries_of students (Dacl sd'))
        = (if decide (FULL_DENY = MODIFY_PROTECTED) then 2 else 1)%nat
      ∧ (FULL_DENY = FULL_DENY →
         Forall (λ ace, ace_sid ace = students → is_denied ace) (Dacl sd')).
Proof.
  assert (Hall : Forall (λ ace, resolvable host (ace_sid ace)) baseline_entries)
    by compute_done.
  assert (Hsid : resolvable host students) by compute_done.
  split_and!; [reflexivity|reflexivity|done|done|discriminate|].
  apply (give_permission_entries host a "students" students FULL_DENY os0
           (unprotected baseline_entries));
    [reflexivity|reflexivity|done|done|discriminate].
Defined.

Lemma give_permission_frame_witness :
  account_names host !! "students" = Some students
  ∧ security os0 !! path a = Some (unprotected baseline_entries)
  ∧ Forall (λ ace, resolvable host (ace_sid ace)) baseline_entries
  ∧ resolvable host students
  ∧ READ ≠ DELETE
  ∧ ∃ os' sd',
      give_permission host a "students" (PyEnum READ) false os0 = (Return tt, os')
      ∧ security os' !! path a = Some sd'
      ∧ filter (λ ace, ace_sid ace ≠ students) (Dacl sd')
        ≡ₚ filter (λ ace, ¬ same_account host students ace)
             (Dacl (unprotected baseline_entries))
      ∧ dacl_protected sd' = false
      ∧ (∀ other, other ≠ path a → security os' !! other = security os0 !! other)
      ∧ volume os' = volume os0.
Proof.
  assert (Hall : Forall (λ ace, resolvable host (ace_sid ace)) baseline_entries)
    by compute_done.
  assert (Hsid : resolvable host students) by compute_done.
  split_and!; [reflexivity|reflexivity|done|done|discriminate|].
  apply (give_permission_frame host a "students" students READ os0
           (unprotected baseline_entries));
    [reflexivity|reflexivity|done|done|discriminate].
Defined.

Lemma give_permission_two_principals_witness :
  account_names host !! "teachers" = Some teachers
  ∧ account_names host !! "students" = Some students
  ∧ security os0 !! path a = Some (unprotected baseline_entries)
  ∧ Forall (λ ace, resolvable host (ace_sid ace)) baseline_entries
  ∧ resolvable host teachers
  ∧ resolvable host students
  ∧ accounts host !! teachers ≠ accounts host !! students
  ∧ ∃ os1 os2 sd2,
      give_permission host a "teachers" (PyEnum MODIFY_PROTECTED) false os0
      = (Return tt, os1)
      ∧ give_permission host a "students" (PyEnum READ) false os1 = (Return tt, os2)
      ∧ security os2 !! path a = Some sd2
      ∧ entries_of teachers (Dacl sd2) ≡ₚ level_entries teachers MODIFY_PROTECTED
      ∧ entries_of students (Dacl sd2) ≡ₚ level_entries students READ.
Proof.
  assert (Hall : Forall (λ ace, resolvable host (ace_sid ace)) baseline_entries)
    by compute_done.
  assert (Hteachers : resolvable host teachers) by compute_done.
  assert (Hstudents : resolvable host students) by compute_done.
  assert (Hdiff : accounts host !! teachers ≠ accounts host !! students)
    by (vm_compute; congruence).
  split_and!; [reflexivity|reflexivity|reflexivity|done..|].
  apply (give_permission_two_principals host a "teachers" "students"
           teachers students MODIFY_PROTECTED READ os0 (unprotected baseline_entries));
    [reflexivity|reflexivity|reflexivity|done|done|done|done|discriminate|discriminate].
Defined.

Lemma reset_then_give_permission_witness :
  account_names host !! "students" = Some students
  ∧ security os0 !! path a = Some (unprotected baseline_entries)
  ∧ resolvable host WellKnownSIDs.NT_AUTHORITY
  ∧ resolvable host WellKnownSIDs.ADMINS
  ∧ resolvable host students
  ∧ accounts host !! WellKnownSIDs.NT_AUTHORITY ≠ accounts host !! students
  ∧ accounts host !! WellKnownSIDs.ADMINS ≠ accounts host !! students
  ∧ ∃ os1 os2 sd2,
      reset_permissions host a false os0 = (Return tt, os1)
      ∧ give_permission host a "students" (PyEnum MODIFY) false os1 = (Return tt, os2)
      ∧ security os2 !! path a = Some sd2
      ∧ Dacl sd2 ≡ₚ baseline_entries ++ level_entries students MODIFY.
Proof.
  assert (Hsystem : resolvable host WellKnownSIDs.NT_AUTHORITY) by compute_done.
  assert (Hadmins : resolvable host WellKnownSIDs.ADMINS) by compute_done.
  assert (Hstudents : resolvable host students) by compute_done.
  assert (Hne1 : accounts host !! WellKnownSIDs.NT_AUTHORITY
                 ≠ accounts host !! students) by (vm_compute; congruence).
  assert (Hne2 : accounts host !! WellKnownSIDs.ADMINS
                 ≠ accounts host !! students) by (vm_compute; congruence).
  split_and!; [reflexivity|reflexivity|done..|].
  apply (reset_then_give_permission host a "students" students MODIFY os0
           (unprotected baseline_entries));
    [reflexivity|reflexivity|done|done|done|done|done|discriminate].
Defined.

Lemma reset_then_give_permission_to_admins_witness :
  account_names host_admins !! "Administrators" = Some WellKnownSIDs.ADMINS
  ∧ security os0 !! path a = Some (unprotected baseline_entries)
  ∧ resolvable host_admins WellKnownSIDs.NT_AUTHORITY
  ∧ resolvable host_admins WellKnownSIDs.ADMINS
  ∧ accounts host_admins !! WellKnownSIDs.NT_AUTHORITY
    ≠ accounts host_admins !! WellKnownSIDs.ADMINS
  ∧ ∃ os1 os2 sd2,
      reset_permissions host_admins a false os0 = (Return tt, os1)
      ∧ give_permission host_admins a "Administrators" (PyEnum READ) false os1
        = (Return tt, os2)
      ∧ security os2 !! path a = Some sd2
      ∧ Dacl sd2
        ≡ₚ mkACE ACCESS_ALLOWED_ACE_TYPE (_set_flags false true).2
             con.FILE_ALL_ACCESS WellKnownSIDs.NT_AUTHORITY
           :: level_entries WellKnownSIDs.ADMINS READ.
Proof.
  assert (Hsystem : resolvable host_admins WellKnownSIDs.NT_AUTHORITY)
    by compute_done.
  assert (Hadmins : resolvable host_admins WellKnownSIDs.ADMINS) by compute_done.
  assert (Hne : accounts host_admins !! WellKnownSIDs.NT_AUTHORITY
                ≠ accounts host_admins !! WellKnownSIDs.ADMINS)
    by (vm_compute; congruence).
  split_and!; [reflexivity|reflexivity|done..|].
  apply (reset_then_give_permission_to_admins host_admins a "Administrators" READ os0
           (unprotected baseline_entries));
    [reflexivity|reflexivity|done|done|done|discriminate].
Defined.

Lemma give_permission_unknown_name_witness :
  account_names host !! "pupils" = None
  ∧ READ ≠ DELETE
  ∧ give_permission host a "pupils" (PyEnum READ) true os0
    = (Raise (pywintypes_error "LookupAccountName"), os0).
Proof.
  split_and!; [reflexivity|discriminate|].
  apply (give_permission_unknown_name host a "pupils" READ true os0);
    [reflexivity|discriminate].
Defined.

Lemma unreadable_descriptor_witness :
  account_names host !! "students" = Some students
  ∧ security os_unreadable !! path a = None
  ∧ READ ≠ DELETE
  ∧ _grant_permission students (path a) READ true true os_unreadable
    = (Raise (OSError (path a)),
       logged (CallGetNamedSecurityInfo (path a)) os_unreadable)
  ∧ _deny_permission students (path a) READ true true os_unreadable
    = (Raise (OSError (path a)),
       logged (CallGetNamedSecurityInfo (path a)) os_unreadable)
  ∧ give_permission host a "students" (PyEnum READ) false os_unreadable
    = (Raise (pywintypes_error "GetFileSecurity"),
       logged (CallGetFileSecurity (path a)) os_unreadable).
Proof.
  split_and!; [reflexivity|reflexivity|discriminate|..];
    apply (unreadable_descriptor host a "students" students READ true true
             os_unreadable eq_refl eq_refl); discriminate.
Defined.

Lemma orphaned_entry_blocks_witness :
  account_names host !! "students" = Some students
  ∧ security os_orphaned !! path a
    = Some (unprotected (baseline_entries ++ [allow (value READ) orphan]))
  ∧ Exists (λ ace, ¬ resolvable host (ace_sid ace))
      (baseline_entries ++ [allow (value READ) orphan])
  ∧ READ ≠ DELETE
  ∧ reset_user_permissions host (path a) students os_orphaned
    = (Raise (pywintypes_error "LookupAccountSid"),
       logged (CallGetFileSecurity (path a)) os_orphaned)
  ∧ give_permission host a "students" (PyEnum READ) false os_orphaned
    = (Raise (pywintypes_error "LookupAccountSid"),
       logged (CallGetFileSecurity (path a)) os_orphaned)
  ∧ security (logged (CallGetFileSecurity (path a)) os_orphaned)
    = security os_orphaned.
Proof.
  assert (Horphan : Exists (λ ace, ¬ resolvable host (ace_sid ace))
                      (baseline_entries ++ [allow (value READ) orphan]))
    by compute_done.
  split_and!; [reflexivity|reflexivity|done|discriminate|..];
    apply (orphaned_entry_blocks host a "students" students READ os_orphaned
             (unprotected (baseline_entries ++ [allow (value READ) orphan]))
             eq_refl eq_refl Horphan); discriminate.
Defined.


Lemma list_dir_content_and_walk_witness :
  let folder := Folder "a" [Folder "b" [] ["3.txt"]] ["1.txt"; "2.txt"] in
  (∀ names, by_name names ≡ₚ names)
  ∧ ¬ exists_at host (volume os0) (path z)
  ∧ find_folder_at host (volume os0) (path a) = Some folder
  ∧ find_folder_at host (volume os0) "c:/A/" = Some folder
  ∧ list_dir_content host by_name z os0 = (Raise (FileNotFoundError (path z)), os0)
  ∧ (path z ≠ "" →
     list_subdirectories_recurs host z os0 = (Return (PyGenerator []), os0))
  ∧ list_dir_content host by_name a os0
    = (Return (PyGenerator ["C:\a\1.txt"; "C:\a\2.txt"; "C:\a\b"]), os0)
  ∧ ∃ content,
      list_dir_content host by_name a os0 = (Return (PyGenerator content), os0)
      ∧ content ≡ₚ map (os_path_join (path a)) (map folder_name [Folder "b" [] ["3.txt"]]
                                                  ++ ["1.txt"; "2.txt"])
      ∧ length content = (length [Folder "b" [] ["3.txt"]] + length ["1.txt"; "2.txt"])%nat
      ∧ (find_folder (volume os0) (path a) = Some folder →
         ∃ first deeper,
           list_subdirectories_recurs host a os0
           = (Return (PyGenerator (first ++ deeper)), os0)
           ∧ first ≡ₚ map (abspath host) content).
Proof.
  intros folder.
  assert (Horder : ∀ names, by_name names ≡ₚ names)
    by (intros names; apply merge_sort_Permutation).
  assert (Hnew : ¬ exists_at host (volume os0) (path z)) by compute_done.
  assert (Hfind : find_folder_at host (volume os0) (path a) = Some folder)
    by (vm_compute; reflexivity).
  destruct (list_dir_content_and_walk host by_name z os0 Horder) as [Hnothing _].
  destruct (list_dir_content_and_walk host by_name a os0 Horder) as [_ Hfolder].
  split_and!; [done|done|done|by vm_compute|by apply Hnothing|by apply Hnothing|
               by vm_compute|].
  apply (Hfolder "a" [Folder "b" [] ["3.txt"]] ["1.txt"; "2.txt"] Hfind).
Defined.


Lemma reset_permissions_recursive_partial_witness :
  list_subdirectories_recurs host a os_partly_unreadable
  = (Return (PyGenerator (["C:\a\b"; "C:\a\1.txt"] ++ "C:\a\2.txt" :: ["C:\a\b\3.txt"])),
     os_partly_unreadable)
  ∧ Forall (λ target, is_Some (security os_partly_unreadable !! target))
      ["C:\a\b"; "C:\a\1.txt"]
  ∧ security os_partly_unreadable !! "C:\a\2.txt" = None
  ∧ ∃ os',
      reset_permissions host a true os_partly_unreadable
      = (Raise (pywintypes_error "GetFileSecurity"), os')
      ∧ (∀ target, target ∈ ["C:\a\b"; "C:\a\1.txt"] →
           ∃ sd, security os_partly_unreadable !! target = Some sd
                 ∧ security os' !! target
                   = Some {| Dacl := baseline_entries;
                             dacl_protected := dacl_protected sd |})
      ∧ (∀ target, target ∉ ["C:\a\b"; "C:\a\1.txt"] →
           security os' !! target = security os_partly_unreadable !! target).
Proof.
  assert (Hall : Forall (λ target, is_Some (security os_partly_unreadable !! target))
                   ["C:\a\b"; "C:\a\1.txt"]) by compute_done.
  split_and!; [reflexivity|done|reflexivity|].
  apply (reset_permissions_recursive_partial host a os_partly_unreadable
           ["C:\a\b"; "C:\a\1.txt"] ["C:\a\b\3.txt"] "C:\a\2.txt");
    [reflexivity|done|reflexivity].
Defined.


Lemma init_failures_witness :
  ¬ exists_at host (volume os0) "C:\y\z"
  ∧ mkdir_in host (folder_name (volume os0)) (volume os0) "C:\y\z" = None
  ∧ "C:\a" ∈ all_paths (volume os_unreadable)
  ∧ exists_at host (volume os_unreadable) "C:\a"
  ∧ security os_unreadable !! "C:\a" = None
  ∧ __init__ host (PyStr "C:/y/z") true os0
    = (Raise (FileNotFoundError "C:\y\z"), os0)
  ∧ __init__ host (PyStr "C:\a") true os_unreadable
    = (Raise (pywintypes_error "GetFileSecurity"),
       logged (CallGetFileSecurity "C:\a") os_unreadable)
  ∧ __init__ host (PyStr "C:\a") false os_unreadable
    = (Return {| _path := "C:\a" |}, os_unreadable).
Proof.
  assert (Hnew : ¬ exists_at host (volume os0) "C:\y\z") by compute_done.
  assert (Hmkdir : mkdir_in host (folder_name (volume os0)) (volume os0) "C:\y\z"
                   = None) by (vm_compute; reflexivity).
  assert (Hold : "C:\a" ∈ all_paths (volume os_unreadable)) by compute_done.
  assert (Hthere : exists_at host (volume os_unreadable) "C:\a") by compute_done.
  assert (Hsd : security os_unreadable !! "C:\a" = None) by reflexivity.
  assert (Hfull : abspath host "C:/y/z" = "C:\y\z") by (vm_compute; reflexivity).
  assert (Hsame : abspath host "C:\a" = "C:\a") by (vm_compute; reflexivity).
  pose proof (init_failures host "C:/y/z" READ true os0) as (_ & _ & _ & Hmissing & _).
  pose proof (init_failures host "C:\a" READ true os_unreadable)
    as (_ & _ & _ & _ & Hunreadable).
  cbv zeta in Hmissing, Hunreadable.
  rewrite Hfull in Hmissing. rewrite Hsame in Hunreadable.
  destruct (Hunreadable Hold Hthere Hsd) as [Hraise Hkeep].
  split_and!; [done|done|done|done|done|by apply Hmissing|exact Hraise|exact Hkeep].
Defined.

Lemma copy_to_answer_witness :
  exists_at host (volume os0) "C:/a/1.txt"
  ∧ ¬ exists_at host (volume os0) "C:/z"
  ∧ exists_at host (volume os0) "c:\A\2.TXT"
  ∧ copy_to host dirname_root makedirs_done transfer_done
      "C:/a/1.txt" "C:/z" false os0
    = (Return true, os0)
  ∧ copy_to host dirname_root makedirs_done transfer_done
      "C:/a/1.txt" "c:\A\2.TXT" false os0
    = (Return false, os0)
  ∧ copy_to host dirname_root makedirs_done transfer_done
      "C:/z" "c:\A\2.TXT" true os0
    = (Return false, os0).
Proof.
  assert (Hsource : exists_at host (volume os0) "C:/a/1.txt") by compute_done.
  assert (Hfree : ¬ exists_at host (volume os0) "C:/z") by compute_done.
  assert (Htaken : exists_at host (volume os0) "c:\A\2.TXT") by compute_done.
  split_and!; [done..| | |].
  - destruct (copy_to_answer host dirname_root makedirs_done transfer_done
                "C:/a/1.txt" "C:/z" false os0) as (Hgo & _).
    rewrite Hgo by auto. reflexivity.
  - apply (copy_to_answer host dirname_root makedirs_done transfer_done
             "C:/a/1.txt" "c:\A\2.TXT" false os0).
    intros [_ [?|?]]; done.
  - apply (copy_to_answer host dirname_root makedirs_done transfer_done
             "C:/z" "c:\A\2.TXT" true os0).
    intros [? _]; done.
Defined.

Lemma move_dir_to_answer_witness :
  move_dir_to host dirname_root makedirs_done transfer_done a "C:/a/b" false os0
  = (Return (false, a), os0)
  ∧ exists_at host (volume os0) "C:/a/b"
  ∧ (false = true ↔ ¬ exists_at host (volume os0) "C:/a/b" ∨ false = true)
  ∧ (false = true → path a = "C:/a/b")
  ∧ (false = false → a = a ∧ os0 = os0).
Proof.
  assert (Hcall : move_dir_to host dirname_root makedirs_done transfer_done
                    a "C:/a/b" false os0 = (Return (false, a), os0))
    by (vm_compute; reflexivity).
  assert (Htaken : exists_at host (volume os0) "C:/a/b") by compute_done.
  split_and!; [done|done|..];
    apply (move_dir_to_answer host dirname_root makedirs_done transfer_done
             a "C:/a/b" false os0 false a os0 Hcall).
Defined.

Lemma dns_round_trip_witness :
  (2 ≤ length ["TEST"; "local"])%nat
  ∧ Forall (λ label, str.occurs "." label = false
                     ∧ str.occurs "," label = false
                     ∧ str.occurs "dc=" label = false) ["TEST"; "local"]
  ∧ dns.dns_ldap_path_switcher "TEST.local" = inr "dc=TEST,dc=local"
  ∧ dns.dns_ldap_path_switcher "dc=TEST,dc=local" = inr "TEST.local".
Proof.
  assert (Hall : Forall (λ label, str.occurs "." label = false
                                  ∧ str.occurs "," label = false
                                  ∧ str.occurs "dc=" label = false)
                   ["TEST"; "local"]) by (repeat constructor).
  split_and!; [simpl; lia|done|..];
    apply (dns_round_trip ["TEST"; "local"]); (done || (simpl; lia)).
Defined.

Lemma dns_single_label_witness :
  str.occurs "." "Test" = false
  ∧ str.occurs "," "Test" = false
  ∧ str.occurs "dc=" "Test" = false
  ∧ dns.dns_ldap_path_switcher "dc=Test" = inr "Test"
  ∧ dns.dns_ldap_path_switcher "Test" = inl dns.NotAValidDNS.
Proof.
  split_and!; [reflexivity..| |];
    apply (dns_single_label "Test"); reflexivity.
Defined.

Lemma file_content_all_or_nothing_witness :
  Forall (λ line, (3 ≤ separators line)%nat)
    ["one,one,S1,01/01/2001"; "two;two;S2;02/02/2002"]
  ∧ Exists (λ line, (separators line < 3)%nat)
      ["one,one,S1,01/01/2001"; "incorrect"]
  ∧ (∃ users,
       user_list.__file_content_to_lst__
         ["one,one,S1,01/01/2001"; "two;two;S2;02/02/2002"]
       = Return users
       ∧ length users = 2%nat
       ∧ Forall (λ user, dom user
                         = ({["sn"; "givenName"; "class"; "birthday"]} : gset string))
           users)
  ∧ user_list.__file_content_to_lst__ ["one,one,S1,01/01/2001"; "incorrect"]
    = Return [].
Proof.
  assert (Hgood : Forall (λ line, (3 ≤ separators line)%nat)
                    ["one,one,S1,01/01/2001"; "two;two;S2;02/02/2002"])
    by (repeat constructor; vm_compute; lia).
  assert (Hbad : Exists (λ line, (separators line < 3)%nat)
                   ["one,one,S1,01/01/2001"; "incorrect"])
    by (apply Exists_cons_tl, Exists_cons_hd; vm_compute; lia).
  split_and!; [done|done|..].
  - by apply (file_content_all_or_nothing
                ["one,one,S1,01/01/2001"; "two;two;S2;02/02/2002"]).
  - by apply (file_content_all_or_nothing ["one,one,S1,01/01/2001"; "incorrect"]).
Defined.

End FurtherCases.
